(** * parkapi-sources: converters for Kienzler, BFRK and RadVIS

    A shallow embedding of
      - [parkapi_sources/converters/radvis_bw/models.py],
      - [parkapi_sources/converters/kienzler/converter.py],
      - [parkapi_sources/converters/bfrk_bw/base_converter.py],
    followed by the properties of the normalisation pipeline that these
    three files decide.

    Python objects are modelled as follows.  Integers are [Z], strings are
    [string] (bytes of the UTF-8 encoding), [Optional[T]] is [option T],
    a [dict] with string keys is a [gmap string _], a Python list is a
    [list].  Exceptions are made explicit with the [result] type below.
    Objects that the code mutates in place live in a store and are named
    by their position in it. *)

From Stdlib Require Import ZArith String Ascii List Lia.
From stdpp Require Import base option list gmap strings pretty.
From Equations Require Import Equations.
Import ListNotations.

Local Open Scope string_scope.
Local Open Scope list_scope.
Local Open Scope Z_scope.

(* ===================================================================== *)
(** ** Python primitives                                                  *)
(* ===================================================================== *)

Module Py.

(** [str(i)] for an [int]. *)
Definition str_int (i : Z) : string := pretty i.

(** Truthiness of an [Optional[str]]: [None] and [''] are falsy. *)
Definition truthy_str (s : option string) : bool :=
  match s with
  | None => false
  | Some EmptyString => false
  | Some (String _ _) => true
  end.

(** Truthiness of an [Optional[int]]: [None] and [0] are falsy. *)
Definition truthy_int (i : option Z) : bool :=
  match i with
  | None => false
  | Some z => negb (z =? 0)
  end.

Definition CR : ascii := ascii_of_nat 13.
Definition LF : ascii := ascii_of_nat 10.

(** [s.replace(c, by)] for a pattern [c] of one ASCII character.  The
    bytes 13 and 10 never occur inside a multi-byte UTF-8 sequence, so
    replacing bytes and replacing code points agree for them. *)
Fixpoint replace_char (c : ascii) (by_ : string) (s : string) : string :=
  match s with
  | EmptyString => EmptyString
  | String a s' =>
      if Ascii.eqb a c then by_ +:+ replace_char c by_ s'
      else String a (replace_char c by_ s')
  end.

(** [s.split(sep)] for a separator of one character.  The result is
    never empty: [''.split(',')] is [['']]. *)
Fixpoint split_char (sep : ascii) (s : string) : list string :=
  match s with
  | EmptyString => [EmptyString]
  | String a s' =>
      if Ascii.eqb a sep then EmptyString :: split_char sep s'
      else match split_char sep s' with
           | [] => [String a EmptyString]
           | w :: ws => String a w :: ws
           end
  end.

(** [l[i : j]] for [0 <= i <= j]; Python clamps both ends to [len(l)]. *)
Definition slice {A} (l : list A) (i j : nat) : list A :=
  take (j - i) (drop i l).

(** A dict literal [{k1: v1, ..., kn: vn}] whose keys are compared with
    [==]; a key written twice keeps its last value. *)
Fixpoint dict_get {K V} `{EqDecision K} (d : list (K * V)) (k : K) : option V :=
  match d with
  | [] => None
  | (k', v) :: d' =>
      match dict_get d' k with
      | Some v' => Some v'
      | None => if decide (k = k') then Some v else None
      end
  end.

(** [d.get(k, default)]. *)
Definition dict_get_default {K V} `{EqDecision K}
    (d : list (K * V)) (k : K) (default : V) : V :=
  match dict_get d k with
  | Some v => v
  | None => default
  end.

(** [{k1: v1, ..., kn: vn}] with string keys, as a finite map.  Entries
    are inserted from left to right. *)
Definition dict {V} (entries : list (string * V)) : gmap string V :=
  fold_left (fun d kv => <[kv.1 := kv.2]> d) entries ∅.

(** [{**d, **e}]: the entries of [e] override those of [d]. *)
Definition spread {V} (d e : gmap string V) : gmap string V := e ∪ d.

(** Outcome of a call that may raise. *)
Inductive result (E A : Type) : Type :=
| Ok (a : A)
| Raise (e : E).
Arguments Ok {E A} a.
Arguments Raise {E A} e.

End Py.

(* ===================================================================== *)
(** ** parkapi_sources.models.enums                                       *)
(* ===================================================================== *)

(** Modelled from the spec: [parkapi_sources/models/enums.py] is not among
    the sources.  The members are those the data model of the
    specification lists for the site type, together with [LOCKBOX], which
    [radvis_bw/models.py] names. *)
Module ParkingSiteType.
Inductive t := STANDS | LOCKERS | WALL_LOOPS | TWO_TIER | BUILDING | SHED | OTHER | LOCKBOX.
#[global] Instance eq_dec : EqDecision t.
Proof. solve_decision. Defined.
End ParkingSiteType.

(** Modelled from the spec: the purpose enumeration of
    [parkapi_sources/models/enums.py] (bike, car, item). *)
Module PurposeType.
Inductive t := BIKE | CAR | ITEM.
#[global] Instance eq_dec : EqDecision t.
Proof. solve_decision. Defined.
End PurposeType.

(** Modelled from the spec: the supervision enumeration of
    [parkapi_sources/models/enums.py] (none, video, unknown).  The sources
    name [NO] and [VIDEO]. *)
Module SupervisionType.
Inductive t := NO | VIDEO | UNKNOWN.
#[global] Instance eq_dec : EqDecision t.
Proof. solve_decision. Defined.
End SupervisionType.

(** A point in time, as [datetime.now(tz=timezone.utc)] returns it
    (microseconds since the epoch). *)
Definition datetime := Z.

(** Values stored under the keys of a property dict and in the attributes
    of a [StaticParkingSiteInput]. *)
Inductive value :=
| VNone
| VBool (b : bool)
| VInt (i : Z)
| VStr (s : string)
| VStrList (l : list string)
| VParkingSiteType (t : ParkingSiteType.t)
| VPurposeType (p : PurposeType.t)
| VSupervisionType (s : SupervisionType.t)
| VDatetime (d : datetime).

#[global] Instance value_eq_dec : EqDecision value.
Proof. solve_decision. Defined.

Definition of_opt {A} (inj : A -> value) (o : option A) : value :=
  match o with
  | Some a => inj a
  | None => VNone
  end.

(* ===================================================================== *)
(** ** radvis_bw/models.py                                                *)
(* ===================================================================== *)

Module OrganizationType.
Inductive t := GEMEINDE | KREIS.
End OrganizationType.

Module RadvisSupervisionType.
Inductive t := KEINE | UNBEKANNT | VIDEO.
#[global] Instance eq_dec : EqDecision t.
Proof. solve_decision. Defined.

Definition mapping : list (t * SupervisionType.t) :=
  [ (KEINE, SupervisionType.NO);
    (VIDEO, SupervisionType.VIDEO) ].

(** [{...}.get(self)]: no default, so a missing key gives [None]. *)
Definition to_supervision_type (self : t) : option SupervisionType.t :=
  Py.dict_get mapping self.
End RadvisSupervisionType.

Module LocationType.
Inductive t :=
  OEFFENTLICHE_EINRICHTUNG | BIKE_AND_RIDE | UNBEKANNT | SCHULE | STRASSENRAUM | SONSTIGES.
#[global] Instance eq_dec : EqDecision t.
Proof. solve_decision. Defined.

Definition mapping : list (t * string) :=
  [ (OEFFENTLICHE_EINRICHTUNG, "Öffentliche Einrichtung");
    (BIKE_AND_RIDE, "Bike and Ride");
    (SCHULE, "Schule");
    (STRASSENRAUM, "Straßenraum") ].

Definition to_related_location (self : t) : option string :=
  Py.dict_get mapping self.
End LocationType.

Module RadvisParkingSiteType.
Inductive t :=
  ANLEHNBUEGEL | FAHRRADBOX | VORDERRADANSCHLUSS | SONSTIGE
| DOPPELSTOECKIG | FAHRRADPARKHAUS | SAMMELANLAGE.
#[global] Instance eq_dec : EqDecision t.
Proof. solve_decision. Defined.

Definition mapping : list (t * ParkingSiteType.t) :=
  [ (ANLEHNBUEGEL, ParkingSiteType.STANDS);
    (FAHRRADBOX, ParkingSiteType.LOCKERS);
    (VORDERRADANSCHLUSS, ParkingSiteType.WALL_LOOPS);
    (DOPPELSTOECKIG, ParkingSiteType.TWO_TIER);
    (FAHRRADPARKHAUS, ParkingSiteType.BUILDING);
    (SAMMELANLAGE, ParkingSiteType.SHED) ].

(** [{...}.get(self, ParkingSiteType.OTHER)]. *)
Definition to_parking_site_type (self : t) : ParkingSiteType.t :=
  Py.dict_get_default mapping self ParkingSiteType.OTHER.
End RadvisParkingSiteType.

Module StatusType.
Inductive t := AKTIV.
End StatusType.

Module Radvis.

Record RadvisFeaturePropertiesInput := {
  id : Z;
  betreiber : string;
  quell_system : string;
  externe_id : option string;
  zustaendig : option string;
  zustaendig_orga_typ : option OrganizationType.t;
  anzahl_stellplaetze : Z;
  anzahl_schliessfaecher : option Z;
  anzahl_lademoeglichkeiten : option Z;
  ueberwacht : RadvisSupervisionType.t;
  abstellanlagen_ort : LocationType.t;
  groessenklasse : option string;
  stellplatzart : RadvisParkingSiteType.t;
  ueberdacht : bool;
  gebuehren_pro_tag : option Z;
  gebuehren_pro_monat : option Z;
  gebuehren_pro_jahr : option Z;
  beschreibung : option string;
  weitere_information : option string;
  status : StatusType.t;
}.

(** The [description] local of [to_dicts]. *)
Definition description_of (self : RadvisFeaturePropertiesInput) : option string :=
  let description :=
    if Py.truthy_str (beschreibung self) && Py.truthy_str (weitere_information self) then
      Some (default "" (beschreibung self) +:+ " " +:+ default "" (weitere_information self))
    else if Py.truthy_str (beschreibung self) then beschreibung self
    else if Py.truthy_str (weitere_information self) then weitere_information self
    else None in
  match description with
  | Some d => Some (Py.replace_char Py.LF " " (Py.replace_char Py.CR "" d))
  | None => None
  end.

(** The [base_data] local of [to_dicts]; [now] is the value that
    [datetime.now(tz=timezone.utc)] returns, read once per call. *)
Definition base_data (self : RadvisFeaturePropertiesInput) (now : datetime)
    : gmap string value :=
  Py.dict
    [ ("operator_name", VStr (betreiber self));
      ("description", of_opt VStr (description_of self));
      ("has_realtime_data", VBool false);
      ("is_covered", VBool (ueberdacht self));
      ("related_location",
        of_opt VStr (LocationType.to_related_location (abstellanlagen_ort self)));
      ("supervision_type",
        of_opt VSupervisionType (RadvisSupervisionType.to_supervision_type (ueberwacht self)));
      ("tags",
        VStrList (if Py.truthy_str (groessenklasse self)
                  then ["BW_SIZE_" +:+ default "" (groessenklasse self)]
                  else []));
      ("static_data_updated_at", VDatetime now) ].

Definition to_dicts (self : RadvisFeaturePropertiesInput) (now : datetime)
    : list (gmap string value) :=
  let base_data := base_data self now in
  let results :=
    [ Py.spread
        (Py.dict
           [ ("uid", VStr (Py.str_int (id self)));
             ("name", VStr "Abstellanlage");
             ("type",
               VParkingSiteType (RadvisParkingSiteType.to_parking_site_type (stellplatzart self)));
             ("capacity", VInt (anzahl_stellplaetze self));
             ("capacity_charging", of_opt VInt (anzahl_lademoeglichkeiten self));
             ("purpose", VPurposeType PurposeType.BIKE) ])
        base_data ] in
  if Py.truthy_int (anzahl_schliessfaecher self) then
    let results :=
      alter (insert "group_uid" (VStr (Py.str_int (id self)))) 0%nat results in
    results ++
    [ Py.spread
        (Py.dict
           [ ("uid", VStr (Py.str_int (id self) +:+ "-lockbox"));
             ("group_uid", VStr (Py.str_int (id self)));
             ("name", VStr "Schliessfach");
             ("type", VParkingSiteType ParkingSiteType.LOCKBOX);
             ("capacity", of_opt VInt (anzahl_schliessfaecher self));
             ("purpose", VPurposeType PurposeType.ITEM) ])
        base_data ]
  else results.

End Radvis.

(* ===================================================================== *)
(** ** Floats, decimals and [to_static_parking_site_inputs_with_proj]     *)
(* ===================================================================== *)

(** A Python [float]: a number [numerator / 2 ^ log2_denominator] with
    its sign, as [float.as_integer_ratio] gives it (the sign is kept
    apart, [-0.0] has it), an infinity, or a NaN. *)
Module Float.
Inductive t :=
| Number (negative : bool) (numerator log2_denominator : N)
| Inf (negative : bool)
| NaN.
End Float.

(** [decimal.Decimal] in the default context of the interpreter:
    precision 28, rounding [ROUND_HALF_EVEN], [Emax] 999999.  A number is
    [(-1) ^ sign * coefficient * 10 ^ exponent]. *)
Module Decimal.
Inductive t :=
| Number (sign : bool) (coefficient : N) (exponent : Z)
| Inf (sign : bool)
| NaN.

(** [decimal.InvalidOperation] *)
Inductive signal := InvalidOperation.

Definition prec : N := 28.
Definition Emax : Z := 999999.
Definition Etiny : Z := -1000026.

(** [c / p] rounded to an integer, the nearest one, and the even one of
    the two nearest when [c / p] lies half way. *)
Definition round_half_even (c p : N) : N :=
  let q := (c / p)%N in
  let r := (c mod p)%N in
  if (2 * r <? p)%N then q
  else if (p <? 2 * r)%N then (q + 1)%N
  else if N.even q then q else (q + 1)%N.

(** The coefficient of [coefficient * 10 ^ exponent] at the exponent
    [target]: zeros are appended, or digits are rounded away. *)
Definition rescale (coefficient : N) (exponent target : Z) : N :=
  if (target <=? exponent)%Z
  then (coefficient * 10 ^ Z.to_N (exponent - target))%N
  else round_half_even coefficient (10 ^ Z.to_N (target - exponent))%N.

(** [self.quantize(exp)]: [self] at the exponent of [exp]. *)
Definition quantize (self exp : t) : Py.result signal t :=
  match self, exp with
  | NaN, _ => Py.Ok NaN
  | _, NaN => Py.Ok NaN
  | Inf sign, Inf _ => Py.Ok (Inf sign)
  | Inf _, Number _ _ _ => Py.Raise InvalidOperation
  | Number _ _ _, Inf _ => Py.Raise InvalidOperation
  | Number sign coefficient exponent, Number _ _ target =>
      if ((target <? Etiny) || (Emax <? target))%Z then Py.Raise InvalidOperation
      else
        let coefficient' := rescale coefficient exponent target in
        if (10 ^ prec <=? coefficient')%N then Py.Raise InvalidOperation
        else Py.Ok (Number sign coefficient' target)
  end.

(** [Decimal(f)] for a float: the same number, exactly;
    [n / 2 ^ k] is [n * 5 ^ k * 10 ^ (-k)]. *)
Definition from_float (f : Float.t) : t :=
  match f with
  | Float.Number negative n k => Number negative (n * 5 ^ k)%N (- Z.of_N k)
  | Float.Inf negative => Inf negative
  | Float.NaN => NaN
  end.

(** [Decimal('1.0000000')] *)
Definition one_e7 : t := Number false 10000000 (-7).
End Decimal.

Module RadvisFeature.

(** Modelled from the spec: [GeojsonFeatureInput] is not among the
    sources.  The method reads [self.geometry.coordinates], a list of
    decimals with the x coordinate first. *)
Record GeojsonGeometry := {
  coordinates : list Decimal.t;
}.

Record RadvisFeatureInput := {
  geometry : GeojsonGeometry;
  properties : Radvis.RadvisFeaturePropertiesInput;
}.

(** Modelled from the spec: the [StaticParkingSiteInput] that the method
    builds with [StaticParkingSiteInput(lat=..., lon=..., **property_dict)]:
    the entries of the property dict and the two coordinates. *)
Record StaticParkingSiteInput := {
  attributes : gmap string value;
  lon : Decimal.t;
  lat : Decimal.t;
}.

(** What the method can raise. *)
Inductive error :=
| IndexError
| DecimalInvalidOperation.

(** The loop [for property_dict in property_dicts] with a body that may
    raise; the state is [static_parking_site_inputs]. *)
Fixpoint with_proj_loop
    (body : gmap string value -> Py.result error StaticParkingSiteInput)
    (property_dicts : list (gmap string value))
    (static_parking_site_inputs : list StaticParkingSiteInput)
    : Py.result error (list StaticParkingSiteInput) :=
  match property_dicts with
  | [] => Py.Ok static_parking_site_inputs
  | property_dict :: rest =>
      match body property_dict with
      | Py.Raise e => Py.Raise e
      | Py.Ok static_parking_site_input =>
          with_proj_loop body rest (static_parking_site_inputs ++ [static_parking_site_input])
      end
  end.

(** [Decimal(x).quantize(Decimal('1.0000000'))] *)
Definition quantized (x : Float.t) : Py.result error Decimal.t :=
  match Decimal.quantize (Decimal.from_float x) Decimal.one_e7 with
  | Py.Ok d => Py.Ok d
  | Py.Raise Decimal.InvalidOperation => Py.Raise DecimalInvalidOperation
  end.

(** [to_float] is the builtin [float] on a [Decimal]; [proj] is the
    argument of the method, called with [inverse=True]; [now] is the
    clock that [to_dicts] reads. *)
Definition to_static_parking_site_inputs_with_proj
    (to_float : Decimal.t -> Float.t)
    (self : RadvisFeatureInput)
    (proj : Float.t -> Float.t -> Float.t * Float.t) (now : datetime)
    : Py.result error (list StaticParkingSiteInput) :=
  let property_dicts := Radvis.to_dicts (properties self) now in
  with_proj_loop
    (fun property_dict =>
       match coordinates (geometry self) !! 1%nat, coordinates (geometry self) !! 0%nat with
       | Some lat0, Some lon0 =>
           let coordinates := proj (to_float lon0) (to_float lat0) in
           match quantized coordinates.1 with
           | Py.Raise e => Py.Raise e
           | Py.Ok lon' =>
               match quantized coordinates.2 with
               | Py.Raise e => Py.Raise e
               | Py.Ok lat' =>
                   Py.Ok {| attributes := property_dict; lon := lon'; lat := lat' |}
               end
           end
       | _, _ => Py.Raise IndexError
       end)
    property_dicts [].

End RadvisFeature.

(* ===================================================================== *)
(** ** Payloads, canonical records and errors                             *)
(* ===================================================================== *)

(** A decoded JSON document, as [response.json()] returns it.  A float is
    kept as mantissa and binary exponent. *)
#[warnings="-register-all"]
Inductive json :=
| JNull
| JBool (b : bool)
| JInt (i : Z)
| JFloat (m e : Z)
| JStr (s : string)
| JArr (items : list json)
| JObj (members : gmap string json).

(** A raw record: a dict with string keys. *)
Abbreviation RawRecord := (gmap string json).

(** [d.get(key)]: [None] (JSON [null]) when the key is missing. *)
Definition dict_get_json (d : RawRecord) (key : string) : json :=
  default JNull (d !! key).

Definition as_dict (j : json) : option RawRecord :=
  match j with
  | JObj d => Some d
  | _ => None
  end.

(** [type(j).__name__] for a decoded JSON value. *)
Definition type_name (j : json) : string :=
  match j with
  | JNull => "NoneType"
  | JBool _ => "bool"
  | JInt _ => "int"
  | JFloat _ _ => "float"
  | JStr _ => "str"
  | JArr _ => "list"
  | JObj _ => "dict"
  end.

(** [validataclass.exceptions.ValidationError]; [to_dict] is the dict that
    [e.to_dict()] returns. *)
Module ValidationError.
Record t := { to_dict : json }.
End ValidationError.

(** Exceptions that leave a converter method. *)
Inductive exn :=
| UncaughtValidationError (e : ValidationError.t)
| AttributeError (msg : string)
| RequestException (msg : string).

Abbreviation result := (Py.result exn).

Module SourceInfo.
Record t := {
  uid : string;
  name : string;
  has_realtime_data : bool;
  public_url : string;
  source_url : string;
}.
End SourceInfo.

(** Modelled from the spec: the declaration of [StaticParkingSiteInput]
    ([parkapi_sources/models]) is not among the sources.  An instance has
    its identifier [uid] (a string, always set) and its other attributes
    by name; an attribute that is unset is [VNone] or missing. *)
Module StaticParkingSiteInput.
Record t := {
  uid : string;
  fields : gmap string value;
}.

(** The field [F] of the record holds the value [v], and [v] is not empty. *)
Definition populated (r : t) (F : string) (v : value) : Prop :=
  fields r !! F = Some v /\ v <> VNone.
End StaticParkingSiteInput.

(** Modelled from the spec: the declaration of [RealtimeParkingSiteInput]
    ([parkapi_sources/models]) is not among the sources: an identifier
    and the realtime attributes by name. *)
Module RealtimeParkingSiteInput.
Record t := {
  uid : string;
  fields : gmap string value;
}.
End RealtimeParkingSiteInput.

(** [parkapi_sources.exceptions.ImportParkingSiteException], with the
    keyword arguments of its constructor. *)
Module ImportParkingSiteException.
Record t := {
  source_uid : string;
  parking_site_uid : json;
  message : string;
}.
End ImportParkingSiteException.

(** What the converters take from their surroundings: the HTTP client,
    the loader of the static GeoJSON data (a mixin that is not among the
    sources) and the text that an f-string produces for a value. *)
Module Request.
Record t := {
  url : string;
  user : option string;
  password : option string;
  action : string;
  context : string;
  ids : list string;
  timeout : Z;
}.
End Request.

Class Surroundings := {
  (** [requests.post(url=..., json=..., timeout=...).json()] for the call
      number [k] (counted from 0) of a run. *)
  requests_post : nat -> Request.t -> result (list json);
  (** [requests.get(url, timeout=...).json()]. *)
  requests_get : string -> Z -> result (list json);
  (** [_get_static_parking_site_inputs_and_exceptions(source_uid=...)]. *)
  _get_static_parking_site_inputs_and_exceptions :
    string -> result (list StaticParkingSiteInput.t * list ImportParkingSiteException.t);
  (** [f'{v}'] for a decoded JSON value. *)
  format : json -> string;
  (** The error that a [ListValidator] raises for a list with items of
      a type that is not allowed. *)
  list_items_validation_error : list json -> ValidationError.t;
}.

(** The loop [for x in xs: body] over a state, where the body may raise. *)
Fixpoint for_each {A S} (body : A -> S -> result S) (xs : list A) (st : S) : result S :=
  match xs with
  | [] => Py.Ok st
  | x :: xs' =>
      match body x st with
      | Py.Ok st' => for_each body xs' st'
      | Py.Raise e => Py.Raise e
      end
  end.

(** [range(start, stop, step)] for natural numbers; [range] with a step
    of 0 raises in Python and is empty here. *)
Equations? range (start stop step : nat) : list nat by wf (stop - start)%nat lt :=
  range start stop 0 := [];
  range start stop (S k) with decide (start < stop)%nat := {
    | left _ := start :: range (start + S k) stop (S k);
    | right _ := [] }.
Proof. lia. Qed.

(* ===================================================================== *)
(** ** kienzler/converter.py                                              *)
(* ===================================================================== *)

Module Kienzler.

(** The attribute [id] of a [KienzlerInput]: an integer or a string. *)
Inductive ident :=
| IdInt (i : Z)
| IdStr (s : string).

(** [str(x)] for an identifier. *)
Definition str (x : ident) : string :=
  match x with
  | IdInt i => Py.str_int i
  | IdStr s => s
  end.

(** [kienzler/models.py] is not among the sources.  The converter uses
    the class [KienzlerInput] through its validator, its attribute [id]
    and two methods; they are taken as they are, for every
    implementation.  [to_static_parking_site] builds a new record from
    the source record and the public URL; nothing else refers to the
    record it returns.  [extend_static_parking_site_input] may change the
    object it is called on and the object it is given: it returns the new
    content of both. *)
Class Models := {
  KienzlerInput : Type;
  id : KienzlerInput -> ident;
  kienzler_item_validator : RawRecord -> Py.result ValidationError.t KienzlerInput;
  to_static_parking_site : KienzlerInput -> string -> StaticParkingSiteInput.t;
  extend_static_parking_site_input :
    KienzlerInput -> StaticParkingSiteInput.t -> KienzlerInput * StaticParkingSiteInput.t;
}.

Record KienzlerBasePullConverter := {
  config_prefix : string;
  source_info : SourceInfo.t;
  config_helper : gmap string string;
  use_geojson : bool;
}.

(** The objects of a run of [get_static_parking_sites] that the merge
    loop can reach, each named by its position:
    [kienzler_objs] are the validated source records,
    [static_objs] the records that [to_static_parking_site] built from
    them (the elements of [static_parking_site_inputs]), and
    [geojson_objs] the records of the GeoJSON overlay. *)
Record Store `{Models} := {
  kienzler_objs : list KienzlerInput;
  static_objs : list StaticParkingSiteInput.t;
  geojson_objs : list StaticParkingSiteInput.t;
}.

Section Converter.
Context `{M : Models} `{W : Surroundings}.

(** [f'PARK_API_KIENZLER_{self.config_prefix}_{suffix}'] *)
Definition config_key (self : KienzlerBasePullConverter) (suffix : string) : string :=
  "PARK_API_KIENZLER_" +:+ config_prefix self +:+ "_" +:+ suffix.

(** [self.config_helper.get(f'PARK_API_KIENZLER_{...}_IDS').split(',')] *)
Definition configured_ids (self : KienzlerBasePullConverter) : result (list string) :=
  match config_helper self !! config_key self "IDS" with
  | Some s => Py.Ok (Py.split_char "," s)
  | None => Py.Raise (AttributeError "'NoneType' object has no attribute 'split'")
  end.

(** The body of the loop of [_request] for one [i].  The state is the
    list of requests sent so far and [result_dicts]. *)
Definition _request_body (self : KienzlerBasePullConverter) (i : nat)
    (st : list Request.t * list json) : result (list Request.t * list json) :=
  match configured_ids self with
  | Py.Raise e => Py.Raise e
  | Py.Ok ids =>
      let request :=
        {| Request.url := SourceInfo.source_url (source_info self) +:+ "/index.php?eID=JSONAPI";
           Request.user := config_helper self !! config_key self "USER";
           Request.password := config_helper self !! config_key self "PASSWORD";
           Request.action := "capacity";
           Request.context := "unit";
           Request.ids := Py.slice ids i (i + 25);
           Request.timeout := 30 |} in
      match requests_post (length st.1) request with
      | Py.Raise e => Py.Raise e
      | Py.Ok response_json => Py.Ok (st.1 ++ [request], st.2 ++ response_json)
      end
  end.

(** [_request], together with the requests it sent. *)
Definition _request_trace (self : KienzlerBasePullConverter)
    : result (list Request.t * list json) :=
  match configured_ids self with
  | Py.Raise e => Py.Raise e
  | Py.Ok ids => for_each (_request_body self) (range 0 (length ids) 25) ([], [])
  end.

Definition _request (self : KienzlerBasePullConverter) : result (list json) :=
  match _request_trace self with
  | Py.Raise e => Py.Raise e
  | Py.Ok (_, result_dicts) => Py.Ok result_dicts
  end.

(** [ListValidator(AnythingValidator(allowed_types=[dict]))] *)
Definition kienzler_list_validator (input : list json)
    : Py.result ValidationError.t (list RawRecord) :=
  match mapM as_dict input with
  | Some dicts => Py.Ok dicts
  | None => Py.Raise (list_items_validation_error input)
  end.

(** The error that [_get_kienzler_parking_sites] appends for a record
    that the item validator refuses. *)
Definition kienzler_import_error (self : KienzlerBasePullConverter)
    (parking_site_dict : RawRecord) (e : ValidationError.t) : ImportParkingSiteException.t :=
  {| ImportParkingSiteException.source_uid := SourceInfo.uid (source_info self);
     ImportParkingSiteException.parking_site_uid := dict_get_json parking_site_dict "uid";
     ImportParkingSiteException.message :=
       "validation error for " +:+ format (JObj parking_site_dict)
         +:+ ": " +:+ format (ValidationError.to_dict e) |}.

(** The body of the loop of [_get_kienzler_parking_sites]; the state is
    [(kienzler_item_inputs, errors)]. *)
Definition _get_kienzler_body (self : KienzlerBasePullConverter)
    (st : list KienzlerInput * list ImportParkingSiteException.t)
    (parking_site_dict : RawRecord)
    : list KienzlerInput * list ImportParkingSiteException.t :=
  match kienzler_item_validator parking_site_dict with
  | Py.Ok item => (st.1 ++ [item], st.2)
  | Py.Raise e => (st.1, st.2 ++ [kienzler_import_error self parking_site_dict e])
  end.

Definition _get_kienzler_parking_sites (self : KienzlerBasePullConverter)
    : result (list KienzlerInput * list ImportParkingSiteException.t) :=
  match _request self with
  | Py.Raise e => Py.Raise e
  | Py.Ok payload =>
      match kienzler_list_validator payload with
      | Py.Raise e => Py.Raise (UncaughtValidationError e)
      | Py.Ok parking_site_dicts =>
          Py.Ok (fold_left (_get_kienzler_body self) parking_site_dicts ([], []))
      end
  end.

Definition _get_static_geojson_parking_sites (self : KienzlerBasePullConverter)
    : result (list StaticParkingSiteInput.t * list ImportParkingSiteException.t) :=
  _get_static_parking_site_inputs_and_exceptions (SourceInfo.uid (source_info self)).

(** [static_geojson_parking_site_inputs_by_uid]: for every identifier the
    position of the overlay record that was stored last under it. *)
Definition index_by_uid (geojson_parking_sites : list StaticParkingSiteInput.t)
    : gmap string nat :=
  fold_left (fun d jg => <[StaticParkingSiteInput.uid jg.2 := jg.1]> d)
    (imap pair geojson_parking_sites) ∅.

(** One round of the merge loop, for the source record at position [i]. *)
Definition merge_step (by_uid : gmap string nat) (st : Store) (i : nat) : Store :=
  match kienzler_objs st !! i with
  | None => st
  | Some kienzler_parking_site =>
      let parking_site_uid := str (id kienzler_parking_site) in
      match by_uid !! parking_site_uid with
      | None => st
      | Some r =>
          match geojson_objs st !! r with
          | None => st
          | Some geojson_parking_site =>
              let '(self', arg') :=
                extend_static_parking_site_input kienzler_parking_site geojson_parking_site in
              {| kienzler_objs := <[i := self']> (kienzler_objs st);
                 static_objs := static_objs st;
                 geojson_objs := <[r := arg']> (geojson_objs st) |}
          end
      end
  end.

(** The merge loop over all of [kienzler_parking_sites]. *)
Definition merge_loop (by_uid : gmap string nat) (st : Store) : Store :=
  fold_left (merge_step by_uid) (seq 0 (length (kienzler_objs st))) st.

(** The store before the merge loop runs. *)
Definition store_before_merge (self : KienzlerBasePullConverter)
    (kienzler_parking_sites : list KienzlerInput)
    (geojson_parking_sites : list StaticParkingSiteInput.t) : Store :=
  {| kienzler_objs := kienzler_parking_sites;
     static_objs :=
       map (fun kienzler_parking_site =>
              to_static_parking_site kienzler_parking_site
                (SourceInfo.public_url (source_info self)))
           kienzler_parking_sites;
     geojson_objs := geojson_parking_sites |}.

(** [get_static_parking_sites], together with the store it leaves. *)
Definition get_static_parking_sites_store (self : KienzlerBasePullConverter)
    : result (Store * list ImportParkingSiteException.t) :=
  match _get_kienzler_parking_sites self with
  | Py.Raise e => Py.Raise e
  | Py.Ok (kienzler_parking_sites, static_parking_site_errors) =>
      if use_geojson self then
        match _get_static_geojson_parking_sites self with
        | Py.Raise e => Py.Raise e
        | Py.Ok (geojson_parking_sites, geojson_parking_site_errors) =>
            let by_uid := index_by_uid geojson_parking_sites in
            let static_parking_site_errors :=
              static_parking_site_errors ++ geojson_parking_site_errors in
            Py.Ok (merge_loop by_uid
                     (store_before_merge self kienzler_parking_sites geojson_parking_sites),
                   static_parking_site_errors)
        end
      else
        Py.Ok (store_before_merge self kienzler_parking_sites [], static_parking_site_errors)
  end.

(** The value that [get_static_parking_sites] returns: the objects of
    [static_parking_site_inputs], read when the method returns, and the
    errors. *)
Definition get_static_parking_sites (self : KienzlerBasePullConverter)
    : result (list StaticParkingSiteInput.t * list ImportParkingSiteException.t) :=
  match get_static_parking_sites_store self with
  | Py.Raise e => Py.Raise e
  | Py.Ok (st, errors) => Py.Ok (static_objs st, errors)
  end.

End Converter.

(** [KienzlerBikeAndRidePullConverter(config_helper=..., use_geojson=...)] *)
Definition KienzlerBikeAndRidePullConverter
    (config_helper : gmap string string) (use_geojson : bool) : KienzlerBasePullConverter :=
  {| config_prefix := "BIKE_AND_RIDE";
     source_info :=
       {| SourceInfo.uid := "kienzler_bike_and_ride";
          SourceInfo.name := "Kienzler: Bike and Ride";
          SourceInfo.has_realtime_data := true;
          SourceInfo.public_url := "https://www.bikeandridebox.de";
          SourceInfo.source_url := "https://www.bikeandridebox.de" |};
     config_helper := config_helper;
     use_geojson := use_geojson |}.

(** [KienzlerKarlsruhePullConverter(config_helper=..., use_geojson=...)] *)
Definition KienzlerKarlsruhePullConverter
    (config_helper : gmap string string) (use_geojson : bool) : KienzlerBasePullConverter :=
  {| config_prefix := "KARLSRUHE";
     source_info :=
       {| SourceInfo.uid := "kienzler_karlruhe";
          SourceInfo.name := "Kienzler: Karlsruhe";
          SourceInfo.has_realtime_data := true;
          SourceInfo.public_url := "https://www.bikeandridebox.de";
          SourceInfo.source_url := "https://www.bikeandridebox.de" |};
     config_helper := config_helper;
     use_geojson := use_geojson |}.

(** [KienzlerNeckarsulmPullConverter(config_helper=..., use_geojson=...)] *)
Definition KienzlerNeckarsulmPullConverter
    (config_helper : gmap string string) (use_geojson : bool) : KienzlerBasePullConverter :=
  {| config_prefix := "NECKARSULM";
     source_info :=
       {| SourceInfo.uid := "kienzler_neckarsulm";
          SourceInfo.name := "Kienzler: Neckarsulm";
          SourceInfo.has_realtime_data := true;
          SourceInfo.public_url := "https://www.bikeandridebox.de";
          SourceInfo.source_url := "https://www.bikeandridebox.de" |};
     config_helper := config_helper;
     use_geojson := use_geojson |}.

(** [KienzlerOffenburgPullConverter(config_helper=..., use_geojson=...)] *)
Definition KienzlerOffenburgPullConverter
    (config_helper : gmap string string) (use_geojson : bool) : KienzlerBasePullConverter :=
  {| config_prefix := "OFFENBURG";
     source_info :=
       {| SourceInfo.uid := "kienzler_offenburg";
          SourceInfo.name := "Kienzler: Offenburg";
          SourceInfo.has_realtime_data := true;
          SourceInfo.public_url := "https://www.fahrradparken-in-offenburg.de";
          SourceInfo.source_url := "https://www.fahrradparken-in-offenburg.de" |};
     config_helper := config_helper;
     use_geojson := use_geojson |}.

(** [KienzlerRadSafePullConverter(config_helper=..., use_geojson=...)] *)
Definition KienzlerRadSafePullConverter
    (config_helper : gmap string string) (use_geojson : bool) : KienzlerBasePullConverter :=
  {| config_prefix := "RADSAFE";
     source_info :=
       {| SourceInfo.uid := "kienzler_rad_safe";
          SourceInfo.name := "Kienzler: RadSafe";
          SourceInfo.has_realtime_data := true;
          SourceInfo.public_url := "https://www.rad-safe.de";
          SourceInfo.source_url := "https://www.rad-safe.de" |};
     config_helper := config_helper;
     use_geojson := use_geojson |}.

(** [KienzlerStuttgartPullConverter(config_helper=..., use_geojson=...)] *)
Definition KienzlerStuttgartPullConverter
    (config_helper : gmap string string) (use_geojson : bool) : KienzlerBasePullConverter :=
  {| config_prefix := "STUTTGART";
     source_info :=
       {| SourceInfo.uid := "kienzler_stuttgart";
          SourceInfo.name := "Kienzler: Stuttgart";
          SourceInfo.has_realtime_data := true;
          SourceInfo.public_url := "https://stuttgart.bike-and-park.de";
          SourceInfo.source_url := "https://stuttgart.bike-and-park.de" |};
     config_helper := config_helper;
     use_geojson := use_geojson |}.

(** [KienzlerVrnPullConverter(config_helper=..., use_geojson=...)] *)
Definition KienzlerVrnPullConverter
    (config_helper : gmap string string) (use_geojson : bool) : KienzlerBasePullConverter :=
  {| config_prefix := "VRN";
     source_info :=
       {| SourceInfo.uid := "kienzler_vrn";
          SourceInfo.name := "Kienzler: VRN";
          SourceInfo.has_realtime_data := true;
          SourceInfo.public_url := "https://www.vrnradbox.de";
          SourceInfo.source_url := "https://www.vrnradbox.de" |};
     config_helper := config_helper;
     use_geojson := use_geojson |}.

(** [KienzlerVVSPullConverter(config_helper=..., use_geojson=...)] *)
Definition KienzlerVVSPullConverter
    (config_helper : gmap string string) (use_geojson : bool) : KienzlerBasePullConverter :=
  {| config_prefix := "VVS";
     source_info :=
       {| SourceInfo.uid := "kienzler_vvs";
          SourceInfo.name := "Kienzler: VVS";
          SourceInfo.has_realtime_data := true;
          SourceInfo.public_url := "https://vvs.bike-and-park.de";
          SourceInfo.source_url := "https://vvs.bike-and-park.de" |};
     config_helper := config_helper;
     use_geojson := use_geojson |}.

(** The subclasses of [KienzlerBasePullConverter], in the order of the
    file, built with the same configuration. *)
Definition converters (config_helper : gmap string string) (use_geojson : bool)
    : list KienzlerBasePullConverter :=
  [ KienzlerBikeAndRidePullConverter config_helper use_geojson;
    KienzlerKarlsruhePullConverter config_helper use_geojson;
    KienzlerNeckarsulmPullConverter config_helper use_geojson;
    KienzlerOffenburgPullConverter config_helper use_geojson;
    KienzlerRadSafePullConverter config_helper use_geojson;
    KienzlerStuttgartPullConverter config_helper use_geojson;
    KienzlerVrnPullConverter config_helper use_geojson;
    KienzlerVVSPullConverter config_helper use_geojson ].

(** [self.required_config_keys], as [__init__] sets it. *)
Definition required_config_keys (self : KienzlerBasePullConverter) : list string :=
  [ config_key self "USER"; config_key self "PASSWORD"; config_key self "IDS" ].

(** The method [to_realtime_parking_site] of [KienzlerInput]
    ([kienzler/models.py], not among the sources), for every
    implementation. *)
Class RealtimeModels `{Models} := {
  to_realtime_parking_site : KienzlerInput -> RealtimeParkingSiteInput.t;
}.

Section Realtime.
Context `{M : Models} `{R : !RealtimeModels} `{W : Surroundings}.

Definition get_realtime_parking_sites (self : KienzlerBasePullConverter)
    : result (list RealtimeParkingSiteInput.t * list ImportParkingSiteException.t) :=
  match _get_kienzler_parking_sites self with
  | Py.Raise e => Py.Raise e
  | Py.Ok (kienzler_parking_sites, static_parking_site_errors) =>
      Py.Ok (fold_left
               (fun realtime_parking_site_inputs kienzler_parking_site =>
                  realtime_parking_site_inputs
                  ++ [to_realtime_parking_site kienzler_parking_site])
               kienzler_parking_sites [],
             static_parking_site_errors)
  end.

End Realtime.

End Kienzler.

(* ===================================================================== *)
(** ** bfrk_bw/base_converter.py                                          *)
(* ===================================================================== *)

Module Bfrk.

(** [bfrk_bw/base_models.py] is not among the sources: the class
    [BfrkBaseInput] is used through its method
    [to_static_parking_site_input] only. *)
Class Models := {
  BfrkBaseInput : Type;
  to_static_parking_site_input : BfrkBaseInput -> StaticParkingSiteInput.t;
}.

(** The abstract property [bfrk_validator] is a field: every subclass
    brings its own.  A [DataclassValidator] is applied to whatever the
    feed contains, dict or not. *)
Record BfrkBasePushConverter `{Models} := {
  source_info : SourceInfo.t;
  bfrk_validator : json -> Py.result ValidationError.t BfrkBaseInput;
}.

Section Converter.
Context `{M : Models} `{W : Surroundings}.

(** [input_dict.get('infraid')]; only a dict has the method [get], and
    the error for another value names the type of that value. *)
Definition get_infraid (input_dict : json) : result json :=
  match input_dict with
  | JObj d => Py.Ok (dict_get_json d "infraid")
  | _ =>
      Py.Raise (AttributeError
                  ("'" +:+ type_name input_dict +:+ "' object has no attribute 'get'"))
  end.

(** The body of the loop of [get_static_parking_sites]; the state is
    [(static_parking_site_inputs, static_parking_site_errors)]. *)
Definition get_static_body (self : BfrkBasePushConverter) (input_dict : json)
    (st : list StaticParkingSiteInput.t * list ImportParkingSiteException.t)
    : result (list StaticParkingSiteInput.t * list ImportParkingSiteException.t) :=
  match bfrk_validator self input_dict with
  | Py.Raise e =>
      match get_infraid input_dict with
      | Py.Raise e' => Py.Raise e'
      | Py.Ok infraid =>
          Py.Ok (st.1,
                 st.2 ++
                 [ {| ImportParkingSiteException.source_uid := SourceInfo.uid (source_info self);
                      ImportParkingSiteException.parking_site_uid := infraid;
                      ImportParkingSiteException.message :=
                        "validation error for " +:+ format input_dict
                          +:+ ": " +:+ format (ValidationError.to_dict e) |} ])
      end
  | Py.Ok input_data => Py.Ok (st.1 ++ [to_static_parking_site_input input_data], st.2)
  end.

Definition get_static_parking_sites (self : BfrkBasePushConverter)
    : result (list StaticParkingSiteInput.t * list ImportParkingSiteException.t) :=
  match requests_get (SourceInfo.source_url (source_info self)) 300 with
  | Py.Raise e => Py.Raise e
  | Py.Ok input_dicts => for_each (get_static_body self) input_dicts ([], [])
  end.

Definition get_realtime_parking_sites (self : BfrkBasePushConverter)
    : list RealtimeParkingSiteInput.t * list ImportParkingSiteException.t :=
  ([], []).

End Converter.

End Bfrk.

(* ===================================================================== *)
(** ** Concrete inputs                                                    *)
(* ===================================================================== *)

Module Sample.

(** A validated RadVIS record: ten stands of type [ANLEHNBUEGEL] with
    four lockers, at a school. *)
Definition radvis_record : Radvis.RadvisFeaturePropertiesInput :=
  {| Radvis.id := 17;
     Radvis.betreiber := "Stadt Ulm";
     Radvis.quell_system := "RADVIS";
     Radvis.externe_id := None;
     Radvis.zustaendig := None;
     Radvis.zustaendig_orga_typ := Some OrganizationType.GEMEINDE;
     Radvis.anzahl_stellplaetze := 10;
     Radvis.anzahl_schliessfaecher := Some 4;
     Radvis.anzahl_lademoeglichkeiten := None;
     Radvis.ueberwacht := RadvisSupervisionType.UNBEKANNT;
     Radvis.abstellanlagen_ort := LocationType.SCHULE;
     Radvis.groessenklasse := Some "XL";
     Radvis.stellplatzart := RadvisParkingSiteType.ANLEHNBUEGEL;
     Radvis.ueberdacht := true;
     Radvis.gebuehren_pro_tag := None;
     Radvis.gebuehren_pro_monat := None;
     Radvis.gebuehren_pro_jahr := None;
     Radvis.beschreibung := Some "Am Eingang";
     Radvis.weitere_information := None;
     Radvis.status := StatusType.AKTIV |}.

(** Modelled from the spec: [kienzler/models.py] is not among the
    sources.  A [KienzlerInput] with the attribute [id] that the
    converter reads, a name and a capacity; the capacity is a required
    numeric field (§4.1: numeric fields reject non-numeric input). *)
Record KienzlerInput := {
  id : string;
  name : string;
  sum_boxes : Z;
}.

(** Modelled from the spec: a [DataclassValidator] for the record above;
    the keys of the raw record are the names of the attributes. *)
Definition kienzler_item_validator (d : RawRecord)
    : Py.result ValidationError.t KienzlerInput :=
  match d !! "id", d !! "name", d !! "sum_boxes" with
  | Some (JStr i), Some (JStr n), Some (JInt c) =>
      Py.Ok {| id := i; name := n; sum_boxes := c |}
  | _, _, _ =>
      Py.Raise {| ValidationError.to_dict := JObj {[ "code" := JStr "field_errors" ]} |}
  end.

(** Modelled from the spec: a mapping function (§4.2) from the source
    record to a canonical record; it sets no address. *)
Definition to_static_parking_site (k : KienzlerInput) (public_url : string)
    : StaticParkingSiteInput.t :=
  {| StaticParkingSiteInput.uid := id k;
     StaticParkingSiteInput.fields :=
       Py.dict [ ("name", VStr (name k));
                 ("capacity", VInt (sum_boxes k));
                 ("public_url", VStr public_url);
                 ("has_realtime_data", VBool true) ] |}.

(** Modelled from the spec: an implementation of
    [extend_static_parking_site_input] that writes the capacity of the
    source record into the record it is given. *)
Definition extend_static_parking_site_input (k : KienzlerInput)
    (g : StaticParkingSiteInput.t) : KienzlerInput * StaticParkingSiteInput.t :=
  (k, {| StaticParkingSiteInput.uid := StaticParkingSiteInput.uid g;
         StaticParkingSiteInput.fields :=
           <["capacity" := VInt (sum_boxes k)]>
             (<["has_realtime_data" := VBool true]> (StaticParkingSiteInput.fields g)) |}).

Definition kienzler_models : Kienzler.Models :=
  {| Kienzler.KienzlerInput := KienzlerInput;
     Kienzler.id := fun k => Kienzler.IdStr (id k);
     Kienzler.kienzler_item_validator := kienzler_item_validator;
     Kienzler.to_static_parking_site := to_static_parking_site;
     Kienzler.extend_static_parking_site_input := extend_static_parking_site_input |}.

(** A well-formed raw record for an identifier. *)
Definition raw_record (i : string) : RawRecord :=
  Py.dict [ ("id", JStr i); ("name", JStr "Radbox"); ("sum_boxes", JInt 12) ].

(** A raw record with a string where the capacity is expected. *)
Definition malformed_record (i : string) : RawRecord :=
  Py.dict [ ("id", JStr i); ("name", JStr "Radbox"); ("sum_boxes", JStr "twelve") ].

(** An overlay record for an identifier: it has an address and a
    capacity of its own. *)
Definition overlay_record (i : string) : StaticParkingSiteInput.t :=
  {| StaticParkingSiteInput.uid := i;
     StaticParkingSiteInput.fields :=
       Py.dict [ ("name", VStr "Station");
                 ("address", VStr "Bahnhofstr. 1");
                 ("capacity", VInt 99) ] |}.

(** What the provider answers to a request: one record per identifier
    asked for, malformed for the identifier [bad]. *)
Definition respond (bad : string) (k : nat) (rq : Request.t) : list json :=
  map (fun i => JObj (if String.eqb i bad then malformed_record i else raw_record i))
      (Request.ids rq).

(** Modelled from the spec: surroundings in which the provider answers
    every request with one record per identifier asked for, the only
    malformed one being that of [bad]; the feed read with GET is [feed]
    and the overlay is [overlay].  The text of a formatted value is not
    modelled. *)
Definition surroundings (bad : string) (feed : list json)
    (overlay : list StaticParkingSiteInput.t) : Surroundings :=
  {| requests_post := fun k rq => Py.Ok (respond bad k rq);
     requests_get := fun _ _ => Py.Ok feed;
     _get_static_parking_site_inputs_and_exceptions := fun _ => Py.Ok (overlay, []);
     format := fun _ => "...";
     list_items_validation_error := fun _ =>
       {| ValidationError.to_dict := JObj {[ "code" := JStr "list_item_errors" ]} |} |}.

Definition config (ids : string) : gmap string string :=
  Py.dict [ ("PARK_API_KIENZLER_BIKE_AND_RIDE_USER", "01275925-742c-460b-8778-eca90eb114bc");
            ("PARK_API_KIENZLER_BIKE_AND_RIDE_PASSWORD", "626027f2-66e9-40bd-8ff2-4c010f5eca05");
            ("PARK_API_KIENZLER_BIKE_AND_RIDE_IDS", ids) ].

Definition five_ids : list string := ["101"; "102"; "103"; "104"; "105"].

(** Modelled from the spec: a BFRK record and its validator; the
    identifier of a raw record is under the key [infraid], the capacity
    is a required numeric field. *)
Record BfrkBaseInput := {
  infraid : string;
  stellplatzanzahl : Z;
}.

Definition bfrk_models : Bfrk.Models :=
  {| Bfrk.BfrkBaseInput := BfrkBaseInput;
     Bfrk.to_static_parking_site_input := fun b =>
       {| StaticParkingSiteInput.uid := infraid b;
          StaticParkingSiteInput.fields := Py.dict [ ("capacity", VInt (stellplatzanzahl b)) ] |} |}.

Definition bfrk_validator (j : json) : Py.result ValidationError.t BfrkBaseInput :=
  match j with
  | JObj d =>
      match d !! "infraid", d !! "stellplatzanzahl" with
      | Some (JStr i), Some (JInt c) => Py.Ok {| infraid := i; stellplatzanzahl := c |}
      | _, _ => Py.Raise {| ValidationError.to_dict := JObj {[ "code" := JStr "field_errors" ]} |}
      end
  | _ => Py.Raise {| ValidationError.to_dict := JObj {[ "code" := JStr "invalid_type" ]} |}
  end.

Definition bfrk_converter : @Bfrk.BfrkBasePushConverter bfrk_models :=
  @Bfrk.Build_BfrkBasePushConverter bfrk_models
    {| SourceInfo.uid := "bfrk_bw_bike";
       SourceInfo.name := "BFRK: Bike";
       SourceInfo.has_realtime_data := false;
       SourceInfo.public_url := "https://www.mobidata-bw.de";
       SourceInfo.source_url := "https://bfrk.example/bike.json" |}
    bfrk_validator.

Definition bfrk_record (i : string) (capacity : json) : RawRecord :=
  Py.dict [ ("infraid", JStr i); ("stellplatzanzahl", capacity) ].

(** A BFRK feed of five records; the third has a string where the
    capacity is expected. *)
Definition bfrk_feed : list RawRecord :=
  [ bfrk_record "201" (JInt 4); bfrk_record "202" (JInt 6);
    bfrk_record "203" (JStr "four");
    bfrk_record "204" (JInt 8); bfrk_record "205" (JInt 2) ].

(** The Kienzler converter of the tests, with five identifiers. *)
Definition kienzler_converter (use_geojson : bool) : Kienzler.KienzlerBasePullConverter :=
  Kienzler.KienzlerBikeAndRidePullConverter (config "101,102,103,104,105") use_geojson.

(** The validated source record for an identifier. *)
Definition kienzler_input (i : string) : KienzlerInput :=
  {| id := i; name := "Radbox"; sum_boxes := 12 |}.

(** The identifiers [1] to [60], separated by commas. *)
Definition sixty_ids : string :=
  String.concat "," (map (fun k : nat => pretty k) (seq 1 60)).

(** Modelled from the spec: a realtime record for a source record: its
    identifier and a free capacity. *)
Definition kienzler_realtime_models : @Kienzler.RealtimeModels kienzler_models :=
  @Kienzler.Build_RealtimeModels kienzler_models
    (fun k => {| RealtimeParkingSiteInput.uid := id k;
                 RealtimeParkingSiteInput.fields :=
                   Py.dict [ ("realtime_free_capacity", VInt (sum_boxes k)) ] |}).

(** Surroundings like [surroundings], but the provider fails to answer
    the request number [failing], and the overlay cannot be loaded. *)
Definition failing_surroundings (failing : nat) : Surroundings :=
  {| requests_post := fun k rq =>
       if decide (k = failing) then Py.Raise (RequestException "Read timed out.")
       else Py.Ok (respond "" k rq);
     requests_get := fun _ _ => Py.Raise (RequestException "Read timed out.");
     _get_static_parking_site_inputs_and_exceptions := fun _ =>
       Py.Raise (RequestException "404 Client Error");
     format := fun _ => "...";
     list_items_validation_error := fun _ =>
       {| ValidationError.to_dict := JObj {[ "code" := JStr "list_item_errors" ]} |} |}.

(** A second RadVIS record, without lockers. *)
Definition radvis_record_plain : Radvis.RadvisFeaturePropertiesInput :=
  {| Radvis.id := 18;
     Radvis.betreiber := "Stadt Ulm";
     Radvis.quell_system := "RADVIS";
     Radvis.externe_id := None;
     Radvis.zustaendig := None;
     Radvis.zustaendig_orga_typ := None;
     Radvis.anzahl_stellplaetze := 6;
     Radvis.anzahl_schliessfaecher := Some 0;
     Radvis.anzahl_lademoeglichkeiten := Some 2;
     Radvis.ueberwacht := RadvisSupervisionType.VIDEO;
     Radvis.abstellanlagen_ort := LocationType.BIKE_AND_RIDE;
     Radvis.groessenklasse := None;
     Radvis.stellplatzart := RadvisParkingSiteType.FAHRRADBOX;
     Radvis.ueberdacht := false;
     Radvis.gebuehren_pro_tag := None;
     Radvis.gebuehren_pro_monat := None;
     Radvis.gebuehren_pro_jahr := None;
     Radvis.beschreibung := Some ("Gleis 1" +:+ String Py.CR (String Py.LF "Nordseite"));
     Radvis.weitere_information := Some "Zugang von der Unterführung";
     Radvis.status := StatusType.AKTIV |}.

(** Surroundings in which the provider answers every request with
    [payload], as it is. *)
Definition surroundings_with_payload (payload : list json) : Surroundings :=
  {| requests_post := fun _ _ => Py.Ok payload;
     requests_get := fun _ _ => Py.Ok payload;
     _get_static_parking_site_inputs_and_exceptions := fun _ => Py.Ok ([], []);
     format := fun _ => "...";
     list_items_validation_error := fun _ =>
       {| ValidationError.to_dict := JObj {[ "code" := JStr "list_item_errors" ]} |} |}.

(** Modelled from the spec: [float(d)] for a [Decimal] that is an integer
    of at most 53 bits, for which the conversion is exact; the inputs
    below are such integers. *)
Definition float_of_integer (d : Decimal.t) : Float.t :=
  match d with
  | Decimal.Number sign c e => Float.Number sign (c * 10 ^ Z.to_N e) 0
  | Decimal.Inf sign => Float.Inf sign
  | Decimal.NaN => Float.NaN
  end.

(** Modelled from the spec: an inverse projection given by its answers
    for two points (the floats nearest to 9.98695853123 and 48.4042038,
    and the floats 1/256 and 3/256); for every other point it answers
    [inf], as a projection library does for a point it cannot
    transform. *)
Definition inverse_projection (x y : Float.t) : Float.t * Float.t :=
  match x, y with
  | Float.Number false 573423 0, Float.Number false 5361836 0 =>
      (Float.Number false 5622157839976503 49, Float.Number false 6812286068651423 47)
  | Float.Number false 1 0, Float.Number false 3 0 =>
      (Float.Number false 1 8, Float.Number false 3 8)
  | _, _ => (Float.Inf false, Float.Inf false)
  end.

(** A RadVIS feature at the point [(x, y)] of the source projection. *)
Definition radvis_feature (x y : N) : RadvisFeature.RadvisFeatureInput :=
  {| RadvisFeature.geometry :=
       {| RadvisFeature.coordinates := [Decimal.Number false x 0; Decimal.Number false y 0] |};
     RadvisFeature.properties := radvis_record |}.

End Sample.

(* ===================================================================== *)
(** ** Vocabulary of the properties                                       *)
(* ===================================================================== *)

(** The keys of [base_data] in [to_dicts]. *)
Definition base_data_keys : list string :=
  [ "operator_name"; "description"; "has_realtime_data"; "is_covered";
    "related_location"; "supervision_type"; "tags"; "static_data_updated_at" ].

(** Number of ancillary facilities that a RadVIS record reports: one
    locker bank when its locker count is set and not 0. *)
Definition ancillary_count (r : Radvis.RadvisFeaturePropertiesInput) : nat :=
  if Py.truthy_int (Radvis.anzahl_schliessfaecher r) then 1%nat else 0%nat.

(** Two dicts agree on every key outside [keys]. *)
Definition differ_only_in (keys : list string) (d1 d2 : gmap string value) : Prop :=
  forall k, k ∉ keys -> d1 !! k = d2 !! k.

(** The records that a validator accepts, in the order of the batch. *)
Definition accepted {R E A} (validate : R -> Py.result E A) (batch : list R) : list A :=
  omap (fun d => match validate d with Py.Ok a => Some a | Py.Raise _ => None end) batch.

(** One error per record that a validator refuses, in the order of the
    batch; [report] builds the error from the record and the failure. *)
Definition rejected {R E A X} (validate : R -> Py.result E A) (report : R -> E -> X)
    (batch : list R) : list X :=
  omap (fun d => match validate d with Py.Ok _ => None | Py.Raise e => Some (report d e) end) batch.

(** The request that [_request] sends for a chunk of identifiers. *)
Definition request_for (self : Kienzler.KienzlerBasePullConverter) (chunk : list string)
    : Request.t :=
  {| Request.url :=
       SourceInfo.source_url (Kienzler.source_info self) +:+ "/index.php?eID=JSONAPI";
     Request.user :=
       Kienzler.config_helper self !! Kienzler.config_key self "USER";
     Request.password :=
       Kienzler.config_helper self !! Kienzler.config_key self "PASSWORD";
     Request.action := "capacity";
     Request.context := "unit";
     Request.ids := chunk;
     Request.timeout := 30 |}.

(** The error that the BFRK converter appends for a refused dict. *)
Definition bfrk_import_error `{M : Bfrk.Models} `{W : Surroundings}
    (self : Bfrk.BfrkBasePushConverter) (input_dict : RawRecord) (e : ValidationError.t)
    : ImportParkingSiteException.t :=
  {| ImportParkingSiteException.source_uid := SourceInfo.uid (Bfrk.source_info self);
     ImportParkingSiteException.parking_site_uid := dict_get_json input_dict "infraid";
     ImportParkingSiteException.message :=
       "validation error for " +:+ format (JObj input_dict)
         +:+ ": " +:+ format (ValidationError.to_dict e) |}.

(** The characters of a string. *)
Definition chars (s : string) : list ascii := list_ascii_of_string s.

(** The identifiers of the dicts that [to_dicts] returns. *)
Definition uids_of (dicts : list (gmap string value)) : list value :=
  omap (fun d => d !! "uid") dicts.

(** [','.join(parts)] *)
Definition join_commas (parts : list string) : string := String.concat "," parts.

(** [n] is the integer nearest to [num / den], and the even one of the
    two nearest when [num / den] lies half way between two integers. *)
Definition nearest_even (num den n : N) : Prop :=
  (2 * n * den <= 2 * num + den)%N
  /\ (2 * num <= 2 * n * den + den)%N
  /\ ((2 * n * den = 2 * num + den)%N \/ (2 * num = 2 * n * den + den)%N ->
      N.even n = true).

(** The float, counted in units of [1e-7], is infinite or rounds to an
    integer of more than 28 digits. *)
Definition overflows (x : Float.t) : Prop :=
  match x with
  | Float.Number _ n k => exists q, nearest_even (n * 10 ^ 7) (2 ^ k) q /\ (10 ^ 28 <= q)%N
  | Float.Inf _ => True
  | Float.NaN => False
  end.

(* ===================================================================== *)
(** ** Dict lookups                                                       *)
(* ===================================================================== *)

Lemma dict_get_app {K V} `{EqDecision K} (l1 l2 : list (K * V)) (k : K) :
  Py.dict_get (l1 ++ l2) k =
  match Py.dict_get l2 k with
  | Some v => Some v
  | None => Py.dict_get l1 k
  end.
Proof.
  induction l1 as [|[k1 v1] l1 IH]; simpl.
  - by destruct (Py.dict_get l2 k).
  - rewrite IH. by destruct (Py.dict_get l2 k).
Qed.

Lemma lookup_dict {V} (entries : list (string * V)) (k : string) :
  Py.dict entries !! k = Py.dict_get entries k.
Proof.
  unfold Py.dict.
  induction entries as [|[k' v] entries IH] using rev_ind; [done|].
  rewrite fold_left_app, dict_get_app. simpl.
  rewrite lookup_insert, IH. case_decide as Hk; subst.
  - by rewrite decide_True.
  - by rewrite decide_False by congruence.
Qed.

Lemma lookup_spread {V} (d e : gmap string V) (k : string) :
  Py.spread d e !! k =
  match e !! k with
  | Some v => Some v
  | None => d !! k
  end.
Proof.
  unfold Py.spread. rewrite lookup_union.
  by destruct (e !! k), (d !! k).
Qed.

(** Evaluates the lookup of a key in a dict that was built from literals. *)
Ltac dict_lookup :=
  rewrite ?lookup_insert, ?lookup_spread, ?lookup_dict;
  cbn [Py.dict_get];
  repeat first
    [ rewrite decide_True by reflexivity
    | rewrite decide_False by discriminate ];
  try reflexivity.

(* ===================================================================== *)
(** ** RadVIS: enumerations and fan-out                                    *)
(* ===================================================================== *)

Lemma base_data_lookup r now k :
  k ∈ base_data_keys -> is_Some (Radvis.base_data r now !! k).
Proof.
  unfold base_data_keys, Radvis.base_data. intros Hk.
  repeat (apply elem_of_cons in Hk as [-> | Hk]); try (by apply elem_of_nil in Hk);
    dict_lookup; eauto.
Qed.

Lemma to_dicts_base_data r now d k :
  d ∈ Radvis.to_dicts r now -> k ∈ base_data_keys ->
  d !! k = Radvis.base_data r now !! k.
Proof.
  intros Hd Hk. destruct (base_data_lookup r now k Hk) as [v Hv].
  assert (k <> "group_uid") as Hg.
  { intros ->. unfold base_data_keys in Hk.
    repeat (apply elem_of_cons in Hk as [Hk | Hk]; [discriminate|]).
    by apply elem_of_nil in Hk. }
  unfold Radvis.to_dicts in Hd.
  destruct (Py.truthy_int _); cbn [alter list_alter app] in Hd;
    repeat (apply elem_of_cons in Hd as [-> | Hd]); try (by apply elem_of_nil in Hd);
    rewrite ?lookup_insert_ne by congruence;
    rewrite lookup_spread, Hv; reflexivity.
Qed.

(** C8. The mappings from the RadVIS enumerations are total, with
    different fallbacks.  [to_parking_site_type] answers with the entry of
    its table, and with [OTHER] for a value without entry; [SONSTIGE] is
    the one value without entry.  [to_supervision_type] has no default:
    for [UNBEKANNT], and for it alone, the answer is [None], which is not
    the supervision value [UNKNOWN], and every dict of [to_dicts] then
    carries an unset [supervision_type]. *)
Theorem enum_mappings_fallbacks :
  (forall v, RadvisParkingSiteType.to_parking_site_type v =
             default ParkingSiteType.OTHER (Py.dict_get RadvisParkingSiteType.mapping v))
  /\ (forall v, Py.dict_get RadvisParkingSiteType.mapping v = None <->
                v = RadvisParkingSiteType.SONSTIGE)
  /\ RadvisParkingSiteType.to_parking_site_type RadvisParkingSiteType.SONSTIGE
       = ParkingSiteType.OTHER
  /\ (forall v, RadvisSupervisionType.to_supervision_type v = None <->
                v = RadvisSupervisionType.UNBEKANNT)
  /\ RadvisSupervisionType.to_supervision_type RadvisSupervisionType.UNBEKANNT
       <> Some SupervisionType.UNKNOWN
  /\ RadvisSupervisionType.to_supervision_type RadvisSupervisionType.KEINE
       = Some SupervisionType.NO
  /\ RadvisSupervisionType.to_supervision_type RadvisSupervisionType.VIDEO
       = Some SupervisionType.VIDEO
  /\ (forall r now d,
        Radvis.ueberwacht r = RadvisSupervisionType.UNBEKANNT ->
        d ∈ Radvis.to_dicts r now ->
        d !! "supervision_type" = Some VNone).
Proof.
  split_and!; try done.
  - intros v. split; [by destruct v | by intros ->].
  - intros v. split; [by destruct v | by intros ->].
  - intros r now d Hu Hd.
    rewrite (to_dicts_base_data r now d "supervision_type" Hd).
    + unfold Radvis.base_data. dict_lookup. by rewrite Hu.
    + unfold base_data_keys. set_solver.
Qed.

Lemma enum_mappings_fallbacks_witness :
  Radvis.ueberwacht Sample.radvis_record = RadvisSupervisionType.UNBEKANNT
  /\ forall d, d ∈ Radvis.to_dicts Sample.radvis_record 0 ->
               d !! "supervision_type" = Some VNone.
Proof.
  split; [reflexivity|].
  intros d Hd.
  destruct enum_mappings_fallbacks as (_ & _ & _ & _ & _ & _ & _ & H).
  apply (H Sample.radvis_record 0 d); [reflexivity | exact Hd].
Defined.

(** C10. The realtime operation of the BFRK converter returns two empty
    lists, for every implementation of the models, every validator and
    source, and whatever the surroundings are. *)
Theorem bfrk_realtime_is_empty `{M : Bfrk.Models} (self : Bfrk.BfrkBasePushConverter) :
  Bfrk.get_realtime_parking_sites self = ([], []).
Proof. reflexivity. Qed.

Lemma not_elem_of_keys6 (k k1 k2 k3 k4 k5 k6 : string) :
  k ∉ [k1; k2; k3; k4; k5; k6] ->
  k <> k1 /\ k <> k2 /\ k <> k3 /\ k <> k4 /\ k <> k5 /\ k <> k6.
Proof. rewrite !not_elem_of_cons. tauto. Qed.

(** C3, as the code has it.  A validated record with [N] ancillary
    facilities ([N] is 1 when its locker count is set and not 0, and 0
    otherwise) gives [1 + N] dicts.  Every dict carries every key of the
    base data with the value of the base data (operator, description,
    realtime flag, coverage, related location, supervision, tags,
    timestamp).  With a locker count [n], the dicts are the parent and
    the locker record: the identifier of the locker record is the one of
    the parent followed by [-lockbox], its group identifier is the
    identifier of the parent, its purpose is [ITEM], its capacity is [n];
    the two dicts differ in identifier, name, type, capacity, charging
    capacity and purpose, and in nothing else. *)
Theorem to_dicts_fan_out (r : Radvis.RadvisFeaturePropertiesInput) (now : datetime) :
  length (Radvis.to_dicts r now) = (1 + ancillary_count r)%nat
  /\ (forall d k, d ∈ Radvis.to_dicts r now -> k ∈ base_data_keys ->
        is_Some (d !! k) /\ d !! k = Radvis.base_data r now !! k)
  /\ (forall n, Radvis.anzahl_schliessfaecher r = Some n -> n <> 0 ->
        exists parent locker,
          Radvis.to_dicts r now = [parent; locker]
          /\ parent !! "uid" = Some (VStr (Py.str_int (Radvis.id r)))
          /\ locker !! "uid" = Some (VStr (Py.str_int (Radvis.id r) +:+ "-lockbox"))
          /\ locker !! "group_uid" = Some (VStr (Py.str_int (Radvis.id r)))
          /\ locker !! "purpose" = Some (VPurposeType PurposeType.ITEM)
          /\ locker !! "capacity" = Some (VInt n)
          /\ differ_only_in
               ["uid"; "name"; "type"; "capacity"; "capacity_charging"; "purpose"]
               parent locker).
Proof.
  split_and!.
  - unfold Radvis.to_dicts, ancillary_count.
    by destruct (Py.truthy_int _).
  - intros d k Hd Hk.
    rewrite (to_dicts_base_data r now d k Hd Hk).
    split; [by apply base_data_lookup | done].
  - intros n Hn Hz. unfold Radvis.to_dicts. rewrite Hn. cbn [Py.truthy_int].
    destruct (Z.eqb_spec n 0) as [|_]; [done|]. cbn [negb alter list_alter app].
    eexists _, _. split; [reflexivity|].
    split_and!.
    + unfold Radvis.base_data. rewrite lookup_insert_ne by discriminate. dict_lookup.
    + unfold Radvis.base_data. dict_lookup.
    + unfold Radvis.base_data. dict_lookup.
    + unfold Radvis.base_data. dict_lookup.
    + unfold Radvis.base_data. dict_lookup.
    + intros k Hk. apply not_elem_of_keys6 in Hk as (? & ? & ? & ? & ? & ?).
      rewrite lookup_insert, !lookup_spread, !lookup_dict.
      destruct (Radvis.base_data r now !! k) as [v|] eqn:Hb.
      * case_decide as Hg; [|done]. subst k.
        revert Hb. unfold Radvis.base_data. dict_lookup. discriminate.
      * cbn [Py.dict_get].
        destruct (decide (k = "group_uid")) as [->|Hg].
        -- repeat first [ rewrite decide_True by reflexivity
                         | rewrite decide_False by discriminate ].
           reflexivity.
        -- rewrite !decide_False by congruence. reflexivity.
Qed.

Lemma to_dicts_fan_out_witness :
  Radvis.anzahl_schliessfaecher Sample.radvis_record = Some 4
  /\ exists parent locker,
       Radvis.to_dicts Sample.radvis_record 0 = [parent; locker]
       /\ locker !! "uid" = Some (VStr "17-lockbox")
       /\ locker !! "group_uid" = Some (VStr "17")
       /\ locker !! "capacity" = Some (VInt 4).
Proof.
  split; [reflexivity|].
  destruct (to_dicts_fan_out Sample.radvis_record 0) as (_ & _ & H).
  destruct (H 4) as (parent & locker & Heq & _ & Hu & Hg & _ & Hc & _);
    [reflexivity | lia |].
  exists parent, locker. split_and!; [exact Heq | exact Hu | exact Hg | exact Hc].
Defined.

(** C3, as the specification words it, fails: the parent and the locker record
    of the sample record differ in their name and in their type, which
    are not among identifier, group identifier, purpose and capacity. *)
Lemma to_dicts_fan_out_counterexample :
  exists parent locker,
    Radvis.to_dicts Sample.radvis_record 0 = [parent; locker]
    /\ parent !! "type" = Some (VParkingSiteType ParkingSiteType.STANDS)
    /\ locker !! "type" = Some (VParkingSiteType ParkingSiteType.LOCKBOX)
    /\ parent !! "name" = Some (VStr "Abstellanlage")
    /\ locker !! "name" = Some (VStr "Schliessfach")
    /\ ~ differ_only_in ["uid"; "group_uid"; "purpose"; "capacity"] parent locker.
Proof.
  eexists _, _. split; [reflexivity|].
  assert (forall p l : gmap string value,
            p !! "type" = Some (VParkingSiteType ParkingSiteType.STANDS) ->
            l !! "type" = Some (VParkingSiteType ParkingSiteType.LOCKBOX) ->
            ~ differ_only_in ["uid"; "group_uid"; "purpose"; "capacity"] p l) as Hno.
  { intros p l Hp Hl Hd. specialize (Hd "type"). rewrite Hp, Hl in Hd.
    assert ("type" ∉ ["uid"; "group_uid"; "purpose"; "capacity"]) as Hk.
    { rewrite !not_elem_of_cons. split_and!; try discriminate. apply not_elem_of_nil. }
    specialize (Hd Hk). discriminate. }
  split_and!; [vm_compute; reflexivity ..|].
  apply Hno; vm_compute; reflexivity.
Qed.

(* ===================================================================== *)
(** ** Kienzler: the merge loop                                           *)
(* ===================================================================== *)

Section MergeLoop.
Context `{M : Kienzler.Models}.

Implicit Types (st : Kienzler.Store) (by_uid : gmap string nat).

(** A round of the loop writes to the source record it runs for and to
    one overlay record; the canonical records are outside its reach. *)
Lemma merge_step_static_objs by_uid st i :
  Kienzler.static_objs (Kienzler.merge_step by_uid st i) = Kienzler.static_objs st.
Proof.
  unfold Kienzler.merge_step.
  destruct (Kienzler.kienzler_objs st !! i) as [k|]; [|done].
  destruct (by_uid !! _) as [r|]; [|done].
  destruct (Kienzler.geojson_objs st !! r) as [g|]; [|done].
  by destruct (Kienzler.extend_static_parking_site_input k g).
Qed.

Lemma merge_steps_static_objs by_uid (rounds : list nat) st :
  Kienzler.static_objs (fold_left (Kienzler.merge_step by_uid) rounds st)
  = Kienzler.static_objs st.
Proof.
  revert st. induction rounds as [|i rounds IH]; intros st; simpl; [done|].
  by rewrite IH, merge_step_static_objs.
Qed.

Lemma merge_loop_static_objs by_uid st :
  Kienzler.static_objs (Kienzler.merge_loop by_uid st) = Kienzler.static_objs st.
Proof. apply merge_steps_static_objs. Qed.

(** The round for a source record whose identifier misses the index
    does nothing at all. *)
Lemma merge_step_miss by_uid st i k :
  Kienzler.kienzler_objs st !! i = Some k ->
  by_uid !! Kienzler.str (Kienzler.id k) = None ->
  Kienzler.merge_step by_uid st i = st.
Proof.
  intros Hk Hmiss. unfold Kienzler.merge_step. by rewrite Hk, Hmiss.
Qed.

(** The round for position [j] leaves the source record at any other
    position alone. *)
Lemma merge_step_kienzler_other by_uid st i j :
  i <> j ->
  Kienzler.kienzler_objs (Kienzler.merge_step by_uid st j) !! i
  = Kienzler.kienzler_objs st !! i.
Proof.
  intros Hij. unfold Kienzler.merge_step.
  destruct (Kienzler.kienzler_objs st !! j) as [k|]; [|done].
  destruct (by_uid !! _) as [r|]; [|done].
  destruct (Kienzler.geojson_objs st !! r) as [g|]; [|done].
  destruct (Kienzler.extend_static_parking_site_input k g). simpl.
  by rewrite list_lookup_insert_ne by congruence.
Qed.

Lemma merge_steps_miss by_uid (rounds : list nat) st i k :
  Kienzler.kienzler_objs st !! i = Some k ->
  by_uid !! Kienzler.str (Kienzler.id k) = None ->
  Kienzler.kienzler_objs (fold_left (Kienzler.merge_step by_uid) rounds st) !! i = Some k.
Proof.
  intros Hk Hmiss. revert st Hk.
  induction rounds as [|j rounds IH]; intros st Hk; simpl; [done|].
  apply IH. destruct (decide (i = j)) as [<-|Hij].
  - by rewrite (merge_step_miss by_uid st i k).
  - by rewrite merge_step_kienzler_other.
Qed.

(** C1. Take the store as [get_static_parking_sites] has it before the
    merge loop, for any source records and any overlay records.  A field
    of a canonical record that holds a value other than [None] before
    the loop holds the same value after it, whatever the overlay records
    contain and whatever [extend_static_parking_site_input] writes; the
    identifier of the record is the same as well. *)
Theorem merge_keeps_populated_fields
    (self : Kienzler.KienzlerBasePullConverter)
    (kienzler_parking_sites : list Kienzler.KienzlerInput)
    (geojson_parking_sites : list StaticParkingSiteInput.t)
    (i : nat) (record : StaticParkingSiteInput.t) (F : string) (v : value) :
  let before :=
    Kienzler.store_before_merge self kienzler_parking_sites geojson_parking_sites in
  let after := Kienzler.merge_loop (Kienzler.index_by_uid geojson_parking_sites) before in
  Kienzler.static_objs before !! i = Some record ->
  StaticParkingSiteInput.populated record F v ->
  exists record',
    Kienzler.static_objs after !! i = Some record'
    /\ StaticParkingSiteInput.uid record' = StaticParkingSiteInput.uid record
    /\ StaticParkingSiteInput.populated record' F v.
Proof.
  intros before after Hi HF. exists record. subst after.
  rewrite merge_loop_static_objs. done.
Qed.

End MergeLoop.

(* ===================================================================== *)
(** ** Kienzler: [get_static_parking_sites]                               *)
(* ===================================================================== *)

Section StaticParkingSites.
Context `{M : Kienzler.Models} `{W : Surroundings}.

Implicit Types (self : Kienzler.KienzlerBasePullConverter).

(** With the overlay in use, the method leaves the store of the merge
    loop and the errors of both loads. *)
Lemma get_static_parking_sites_store_geojson self ks errors gs geojson_errors :
  Kienzler._get_kienzler_parking_sites self = Py.Ok (ks, errors) ->
  Kienzler.use_geojson self = true ->
  Kienzler._get_static_geojson_parking_sites self = Py.Ok (gs, geojson_errors) ->
  Kienzler.get_static_parking_sites_store self
  = Py.Ok (Kienzler.merge_loop (Kienzler.index_by_uid gs)
             (Kienzler.store_before_merge self ks gs),
           errors ++ geojson_errors).
Proof.
  intros Hk Hu Hg. unfold Kienzler.get_static_parking_sites_store.
  by rewrite Hk, Hu, Hg.
Qed.

(** C2, as the code has it.  With the overlay in use and both loads
    successful, the records returned are the records that
    [to_static_parking_site] built from the source records, one per
    source record and in their order, and the errors are those of the two
    loads.  Whatever the overlay holds for the identifiers of the source
    records, no field of a returned record is taken from it: a field that
    [to_static_parking_site] leaves unset is unset in the result. *)
Theorem kienzler_overlay_not_applied self ks errors gs geojson_errors :
  Kienzler._get_kienzler_parking_sites self = Py.Ok (ks, errors) ->
  Kienzler.use_geojson self = true ->
  Kienzler._get_static_geojson_parking_sites self = Py.Ok (gs, geojson_errors) ->
  Kienzler.get_static_parking_sites self
  = Py.Ok ((fun k => Kienzler.to_static_parking_site k
                       (SourceInfo.public_url (Kienzler.source_info self))) <$> ks,
           errors ++ geojson_errors).
Proof.
  intros Hk Hu Hg. unfold Kienzler.get_static_parking_sites.
  rewrite (get_static_parking_sites_store_geojson self ks errors gs geojson_errors)
    by done.
  by rewrite merge_loop_static_objs.
Qed.

(** C6. When the identifier of a source record has no entry in the
    overlay index, its round of the merge loop leaves the whole store as
    the rounds before it left it, and the method returns, at the position
    of that record, the canonical record as [to_static_parking_site]
    built it.  The source record is unchanged after the complete loop.
    The errors returned are those of the two loads: the miss adds
    none. *)
Theorem merge_miss_leaves_record self ks errors gs geojson_errors i k :
  let by_uid := Kienzler.index_by_uid gs in
  let before := Kienzler.store_before_merge self ks gs in
  let at_round := fold_left (Kienzler.merge_step by_uid) (seq 0 i) before in
  let canonical :=
    Kienzler.to_static_parking_site k (SourceInfo.public_url (Kienzler.source_info self)) in
  Kienzler._get_kienzler_parking_sites self = Py.Ok (ks, errors) ->
  Kienzler.use_geojson self = true ->
  Kienzler._get_static_geojson_parking_sites self = Py.Ok (gs, geojson_errors) ->
  ks !! i = Some k ->
  by_uid !! Kienzler.str (Kienzler.id k) = None ->
  Kienzler.merge_step by_uid at_round i = at_round
  /\ Kienzler.kienzler_objs (Kienzler.merge_loop by_uid before) !! i = Some k
  /\ exists static_parking_site_inputs,
       Kienzler.get_static_parking_sites self
       = Py.Ok (static_parking_site_inputs, errors ++ geojson_errors)
       /\ static_parking_site_inputs !! i = Some canonical.
Proof.
  intros by_uid before at_round canonical Hk Hu Hg Hi Hmiss. split_and!.
  - apply (merge_step_miss by_uid at_round i k); [|done].
    by apply merge_steps_miss.
  - by apply merge_steps_miss.
  - unfold Kienzler.get_static_parking_sites.
    rewrite (get_static_parking_sites_store_geojson self ks errors gs geojson_errors)
      by done.
    eexists. split; [reflexivity|].
    rewrite merge_loop_static_objs. simpl.
    by rewrite list_lookup_fmap, Hi.
Qed.

End StaticParkingSites.

(* ===================================================================== *)
(** ** Validation of a batch                                              *)
(* ===================================================================== *)

Lemma mapM_as_dict (batch : list RawRecord) :
  mapM as_dict (JObj <$> batch) = Some batch.
Proof.
  induction batch as [|d batch IH]; [done|].
  cbn. rewrite IH. done.
Qed.

Lemma accepted_app {R E A} (validate : R -> Py.result E A) (b1 b2 : list R) :
  accepted validate (b1 ++ b2) = accepted validate b1 ++ accepted validate b2.
Proof. apply omap_app. Qed.

Lemma rejected_app {R E A X} (validate : R -> Py.result E A) (report : R -> E -> X)
    (b1 b2 : list R) :
  rejected validate report (b1 ++ b2)
  = rejected validate report b1 ++ rejected validate report b2.
Proof. apply omap_app. Qed.

(** Every record of a batch is either accepted or reported. *)
Lemma accepted_rejected_length {R E A X} (validate : R -> Py.result E A)
    (report : R -> E -> X) (batch : list R) :
  (length (accepted validate batch) + length (rejected validate report batch))%nat
  = length batch.
Proof.
  induction batch as [|d batch IH]; [done|].
  unfold accepted, rejected in *. cbn.
  destruct (validate d); cbn; lia.
Qed.

Section Validation.
Context `{MK : Kienzler.Models} `{MB : Bfrk.Models} `{W : Surroundings}.

Lemma get_kienzler_loop (self : Kienzler.KienzlerBasePullConverter)
    (batch : list RawRecord) items errors :
  fold_left (Kienzler._get_kienzler_body self) batch (items, errors)
  = (items ++ accepted Kienzler.kienzler_item_validator batch,
     errors ++ rejected Kienzler.kienzler_item_validator
                 (Kienzler.kienzler_import_error self) batch).
Proof.
  revert items errors.
  induction batch as [|d batch IH]; intros items errors.
  - simpl. by rewrite !app_nil_r.
  - simpl. unfold Kienzler._get_kienzler_body at 2.
    unfold accepted, rejected in *. cbn.
    destruct (Kienzler.kienzler_item_validator d) as [k|e]; cbn;
      rewrite IH, <- ?app_assoc; done.
Qed.

(** The Kienzler converter validates all of a batch of raw records. *)
Lemma get_kienzler_parking_sites_batch (self : Kienzler.KienzlerBasePullConverter)
    (batch : list RawRecord) :
  Kienzler._request self = Py.Ok (JObj <$> batch) ->
  Kienzler._get_kienzler_parking_sites self
  = Py.Ok (accepted Kienzler.kienzler_item_validator batch,
           rejected Kienzler.kienzler_item_validator
             (Kienzler.kienzler_import_error self) batch).
Proof.
  intros Hreq. unfold Kienzler._get_kienzler_parking_sites, Kienzler.kienzler_list_validator.
  rewrite Hreq, mapM_as_dict. by rewrite get_kienzler_loop.
Qed.

Lemma bfrk_loop (self : Bfrk.BfrkBasePushConverter) (batch : list RawRecord) inputs errors :
  let validate := fun d => Bfrk.bfrk_validator self (JObj d) in
  for_each (Bfrk.get_static_body self) (JObj <$> batch) (inputs, errors)
  = Py.Ok (inputs ++ (Bfrk.to_static_parking_site_input <$> accepted validate batch),
           errors ++ rejected validate (bfrk_import_error self) batch).
Proof.
  intros validate. revert inputs errors.
  induction batch as [|d batch IH]; intros inputs errors.
  - simpl. by rewrite !app_nil_r.
  - cbn [fmap list_fmap for_each]. unfold Bfrk.get_static_body at 1.
    unfold accepted, rejected, validate in *. cbn.
    destruct (Bfrk.bfrk_validator self (JObj d)) as [b|e]; cbn;
      rewrite IH, <- ?app_assoc; done.
Qed.

(** The BFRK converter validates all of a batch of raw records. *)
Lemma bfrk_static_parking_sites_batch (self : Bfrk.BfrkBasePushConverter)
    (batch : list RawRecord) :
  let validate := fun d => Bfrk.bfrk_validator self (JObj d) in
  requests_get (SourceInfo.source_url (Bfrk.source_info self)) 300
    = Py.Ok (JObj <$> batch) ->
  Bfrk.get_static_parking_sites self
  = Py.Ok (Bfrk.to_static_parking_site_input <$> accepted validate batch,
           rejected validate (bfrk_import_error self) batch).
Proof.
  intros validate Hget. unfold Bfrk.get_static_parking_sites.
  rewrite Hget. apply bfrk_loop.
Qed.

(** A payload with an item that is not a dict is refused as a whole by
    the list validator of the Kienzler converter, and nothing catches
    that error: such an item is not a raw record. *)
Lemma get_kienzler_parking_sites_not_dicts (self : Kienzler.KienzlerBasePullConverter)
    (payload : list json) :
  Kienzler._request self = Py.Ok payload ->
  mapM as_dict payload = None ->
  Kienzler._get_kienzler_parking_sites self
  = Py.Raise (UncaughtValidationError (list_items_validation_error payload)).
Proof.
  intros Hreq Hno. unfold Kienzler._get_kienzler_parking_sites, Kienzler.kienzler_list_validator.
  by rewrite Hreq, Hno.
Qed.

(** C4. A batch of raw records in which the record [bad] fails the
    validation, with any records [before] it and any [rest] after it,
    for the Kienzler converter and for the BFRK converter.  Both return
    normally.  The successes are those of [before] followed by those of
    [rest]; the errors are those of [before], then the error for [bad],
    then those of [rest]: the failure costs its own record and nothing
    else, and every other failure of the batch is reported in the same
    way. *)
Theorem validation_failure_does_not_abort
    (kienzler : Kienzler.KienzlerBasePullConverter) (bfrk : Bfrk.BfrkBasePushConverter)
    (before_k rest_k before_b rest_b : list RawRecord) (bad_k bad_b : RawRecord)
    (e_k e_b : ValidationError.t) :
  let validate_k := Kienzler.kienzler_item_validator in
  let validate_b := fun d => Bfrk.bfrk_validator bfrk (JObj d) in
  Kienzler._request kienzler = Py.Ok (JObj <$> before_k ++ bad_k :: rest_k) ->
  requests_get (SourceInfo.source_url (Bfrk.source_info bfrk)) 300
    = Py.Ok (JObj <$> before_b ++ bad_b :: rest_b) ->
  validate_k bad_k = Py.Raise e_k ->
  validate_b bad_b = Py.Raise e_b ->
  Kienzler._get_kienzler_parking_sites kienzler
  = Py.Ok (accepted validate_k before_k ++ accepted validate_k rest_k,
           rejected validate_k (Kienzler.kienzler_import_error kienzler) before_k
           ++ Kienzler.kienzler_import_error kienzler bad_k e_k
           :: rejected validate_k (Kienzler.kienzler_import_error kienzler) rest_k)
  /\ Bfrk.get_static_parking_sites bfrk
     = Py.Ok (Bfrk.to_static_parking_site_input
                <$> (accepted validate_b before_b ++ accepted validate_b rest_b),
              rejected validate_b (bfrk_import_error bfrk) before_b
              ++ bfrk_import_error bfrk bad_b e_b
              :: rejected validate_b (bfrk_import_error bfrk) rest_b).
Proof.
  intros validate_k validate_b Hreq Hget Hk Hb. split.
  - rewrite (get_kienzler_parking_sites_batch kienzler _ Hreq).
    rewrite accepted_app, rejected_app.
    unfold accepted at 2, rejected at 2. cbn. fold validate_k. rewrite Hk. done.
  - rewrite (bfrk_static_parking_sites_batch bfrk _ Hget).
    rewrite accepted_app, rejected_app.
    unfold accepted at 2, rejected at 2. cbn.
    change (Bfrk.bfrk_validator bfrk (JObj bad_b)) with (validate_b bad_b).
    rewrite Hb. done.
Qed.

(** C5, as the code has it for the Kienzler converter.  A batch in
    which the record [bad] fails the validation; [bad] carries its
    identifier under the key [id], as the validated records do, and has
    no key [uid].  The converter returns the successes of the other
    records and one error for [bad] among the errors, and the identifier
    that this error carries is [None], not the identifier of [bad]. *)
Theorem kienzler_import_error_identifier
    (self : Kienzler.KienzlerBasePullConverter)
    (before rest : list RawRecord) (bad : RawRecord) (e : ValidationError.t)
    (identifier : json) :
  let validate := Kienzler.kienzler_item_validator in
  let report := Kienzler.kienzler_import_error self in
  Kienzler._request self = Py.Ok (JObj <$> before ++ bad :: rest) ->
  validate bad = Py.Raise e ->
  bad !! "id" = Some identifier ->
  identifier <> JNull ->
  bad !! "uid" = None ->
  exists error,
    Kienzler._get_kienzler_parking_sites self
    = Py.Ok (accepted validate before ++ accepted validate rest,
             rejected validate report before ++ error :: rejected validate report rest)
    /\ ImportParkingSiteException.parking_site_uid error = JNull
    /\ ImportParkingSiteException.parking_site_uid error <> identifier.
Proof.
  intros validate report Hreq Hbad Hid Hnn Huid.
  exists (report bad e). split_and!.
  - rewrite (get_kienzler_parking_sites_batch self _ Hreq).
    rewrite accepted_app, rejected_app.
    unfold accepted at 2, rejected at 2. cbn. fold validate. rewrite Hbad. done.
  - unfold report, Kienzler.kienzler_import_error, dict_get_json. simpl. by rewrite Huid.
  - unfold report, Kienzler.kienzler_import_error, dict_get_json. simpl. rewrite Huid.
    simpl. congruence.
Qed.

End Validation.

(* ===================================================================== *)
(** ** Kienzler: the requests                                             *)
(* ===================================================================== *)

Lemma range_step (start stop k : nat) :
  range start stop (S k) =
  if decide (start < stop)%nat then start :: range (start + S k) stop (S k) else [].
Proof.
  rewrite range_equation_2.
  destruct (decide (start < stop)%nat); reflexivity.
Qed.

Lemma ceil_div_step (n i : nat) :
  (i < n)%nat -> ((n - i + 24) / 25 = S ((n - (i + 25) + 24) / 25))%nat.
Proof.
  intros Hlt.
  pose proof (Nat.div_mod_eq (n - i + 24) 25).
  pose proof (Nat.div_mod_eq (n - (i + 25) + 24) 25).
  pose proof (Nat.mod_upper_bound (n - i + 24) 25).
  pose proof (Nat.mod_upper_bound (n - (i + 25) + 24) 25).
  lia.
Qed.

(** The values of [i] in [for i in range(start, n, 25)]. *)
Lemma range_closed (n m i : nat) :
  (n - i <= m)%nat ->
  range i n 25 = (fun j => i + 25 * j)%nat <$> seq 0 ((n - i + 24) / 25)%nat.
Proof.
  revert i. induction m as [|m IH]; intros i Hm; rewrite range_step.
  - rewrite decide_False by lia.
    by replace (n - i)%nat with 0%nat by lia.
  - case_decide as Hlt.
    + rewrite (ceil_div_step n i Hlt). cbn [seq fmap list_fmap].
      rewrite Nat.mul_0_r, Nat.add_0_r. f_equal.
      rewrite IH by lia. rewrite <- seq_shift, <- list_fmap_compose.
      apply list_fmap_ext. intros ? j _. simpl. lia.
    + by replace (n - i)%nat with 0%nat by lia.
Qed.

Lemma concat_chunks {A} (l : list A) (c : nat) :
  concat ((fun k => take 25 (drop (25 * k) l)) <$> seq 0 c) = take (25 * c) l.
Proof.
  induction c as [|c IH]; [done|].
  rewrite seq_S, fmap_app, concat_app, IH. simpl. rewrite app_nil_r.
  rewrite take_take_drop. f_equal. lia.
Qed.

Lemma ceil_div_covers (n : nat) : (n <= 25 * ((n + 24) / 25))%nat.
Proof.
  pose proof (Nat.div_mod_eq (n + 24) 25).
  pose proof (Nat.mod_upper_bound (n + 24) 25).
  lia.
Qed.

Lemma ceil_div_tight (n k : nat) : (k < (n + 24) / 25)%nat -> (25 * k < n)%nat.
Proof.
  pose proof (Nat.div_mod_eq (n + 24) 25).
  pose proof (Nat.mod_upper_bound (n + 24) 25).
  lia.
Qed.

Section Requests.
Context `{W : Surroundings}.

(** The loop of [_request] over any values of [i], when every request is
    answered: one request per value, the answers appended in order. *)
Lemma request_loop (self : Kienzler.KienzlerBasePullConverter) (ids : list string)
    (respond : nat -> Request.t -> list json) (rounds : list nat) sent result_dicts :
  let request_at := fun i : nat => request_for self (Py.slice ids i (i + 25)) in
  Kienzler.configured_ids self = Py.Ok ids ->
  (forall k rq, requests_post k rq = Py.Ok (respond k rq)) ->
  for_each (Kienzler._request_body self) rounds (sent, result_dicts)
  = Py.Ok (sent ++ (request_at <$> rounds),
           result_dicts
           ++ concat (imap (fun j => respond (length sent + j)%nat) (request_at <$> rounds))).
Proof.
  intros request_at Hids Hpost. revert sent result_dicts.
  induction rounds as [|i rounds IH]; intros sent result_dicts.
  - simpl. by rewrite !app_nil_r.
  - cbn [for_each]. unfold Kienzler._request_body at 1.
    rewrite Hids, Hpost. cbn [fst snd].
    change (Py.slice ids i (i + 25)) with (Request.ids (request_at i)).
    change {| Request.url := _; Request.ids := Request.ids (request_at i) |}
      with (request_at i).
    rewrite IH. cbn [fmap list_fmap imap concat].
    rewrite <- !app_assoc. cbn [app]. rewrite Nat.add_0_r, length_app. cbn [length].
    do 5 f_equal. apply imap_ext. intros j rq _. simpl. f_equal. lia.
Qed.

(** C9. With [n] identifiers in the configured comma-separated list and
    a provider that answers every request, [_request] sends
    [ceil(n / 25)] requests.  Request number [k] carries the identifiers
    at the positions [25 * k] to [25 * k + 24] of the list, between 1 and
    25 of them; the chunks put one after the other are the configured
    list, so every identifier is sent once and in its place.  The result
    is the answers put one after the other in the order of the
    requests. *)
Theorem request_chunks (self : Kienzler.KienzlerBasePullConverter) (s : string)
    (respond : nat -> Request.t -> list json) :
  let ids := Py.split_char "," s in
  let n := length ids in
  let chunks := (fun k => take 25 (drop (25 * k) ids)) <$> seq 0 ((n + 24) / 25)%nat in
  let requests := request_for self <$> chunks in
  Kienzler.config_helper self !! Kienzler.config_key self "IDS" = Some s ->
  (forall k rq, requests_post k rq = Py.Ok (respond k rq)) ->
  Kienzler._request_trace self = Py.Ok (requests, concat (imap respond requests))
  /\ Kienzler._request self = Py.Ok (concat (imap respond requests))
  /\ length requests = ((n + 24) / 25)%nat
  /\ Forall (fun chunk => (1 <= length chunk <= 25)%nat) chunks
  /\ concat chunks = ids.
Proof.
  intros ids n chunks requests Hcfg Hpost.
  assert (Kienzler.configured_ids self = Py.Ok ids) as Hids.
  { unfold Kienzler.configured_ids. by rewrite Hcfg. }
  assert (Kienzler._request_trace self = Py.Ok (requests, concat (imap respond requests)))
    as Htrace.
  { unfold Kienzler._request_trace. rewrite Hids.
    rewrite (request_loop self ids respond) by done. cbn [app length].
    rewrite (range_closed (length ids) (length ids) 0) by lia.
    rewrite Nat.sub_0_r. fold n.
    assert ((fun i : nat => request_for self (Py.slice ids i (i + 25)))
              <$> ((fun j : nat => (0 + 25 * j)%nat) <$> seq 0 ((n + 24) / 25)%nat)
            = requests) as ->; [|done].
    subst requests chunks. rewrite <- !list_fmap_compose.
    apply list_fmap_ext. intros ? k _. simpl. unfold Py.slice.
    do 2 f_equal; lia. }
  split_and!.
  - exact Htrace.
  - unfold Kienzler._request. by rewrite Htrace.
  - subst requests chunks. by rewrite !length_fmap, length_seq.
  - subst chunks. apply Forall_fmap, Forall_forall. intros k Hk.
    apply elem_of_seq in Hk as [_ Hk]. simpl in Hk.
    apply ceil_div_tight in Hk. fold n in Hk. simpl.
    rewrite length_take, length_drop. fold n. lia.
  - subst chunks. rewrite concat_chunks. apply take_ge.
    fold n. apply ceil_div_covers.
Qed.

End Requests.

(* ===================================================================== *)
(** ** The properties on concrete batches                                 *)
(* ===================================================================== *)

Lemma merge_keeps_populated_fields_witness :
  let self := Sample.kienzler_converter true in
  let ks := [Sample.kienzler_input "101"] in
  let gs := [Sample.overlay_record "101"] in
  let before := Kienzler.store_before_merge (M := Sample.kienzler_models) self ks gs in
  let after := Kienzler.merge_loop (Kienzler.index_by_uid gs) before in
  StaticParkingSiteInput.fields (Sample.overlay_record "101") !! "capacity" = Some (VInt 99)
  /\ Kienzler.geojson_objs after !! 0%nat <> Kienzler.geojson_objs before !! 0%nat
  /\ exists record',
       Kienzler.static_objs after !! 0%nat = Some record'
       /\ StaticParkingSiteInput.uid record' = "101"
       /\ StaticParkingSiteInput.populated record' "capacity" (VInt 12).
Proof.
  intros self ks gs before after. split_and!.
  - vm_compute. reflexivity.
  - vm_compute. discriminate.
  - apply (merge_keeps_populated_fields (M := Sample.kienzler_models) self ks gs 0%nat
             (Sample.to_static_parking_site (Sample.kienzler_input "101")
                "https://www.bikeandridebox.de")
             "capacity" (VInt 12)).
    + reflexivity.
    + split; [vm_compute; reflexivity | discriminate].
Defined.

Lemma merge_miss_leaves_record_witness :
  let self := Sample.kienzler_converter true in
  let W := Sample.surroundings "" [] [Sample.overlay_record "101"] in
  exists static_parking_site_inputs,
    Kienzler.get_static_parking_sites (M := Sample.kienzler_models) (W := W) self
    = Py.Ok (static_parking_site_inputs, [])
    /\ static_parking_site_inputs !! 1%nat
       = Some (Sample.to_static_parking_site (Sample.kienzler_input "102")
                 "https://www.bikeandridebox.de").
Proof.
  intros self W.
  destruct (merge_miss_leaves_record (M := Sample.kienzler_models) (W := W) self
              (Sample.kienzler_input <$> Sample.five_ids) []
              [Sample.overlay_record "101"] [] 1%nat (Sample.kienzler_input "102"))
    as (_ & _ & Hret).
  - vm_compute. reflexivity.
  - reflexivity.
  - reflexivity.
  - reflexivity.
  - vm_compute. reflexivity.
  - exact Hret.
Defined.

Lemma validation_failure_does_not_abort_witness :
  let W := Sample.surroundings "103" (JObj <$> Sample.bfrk_feed) [] in
  (exists items error,
     Kienzler._get_kienzler_parking_sites (M := Sample.kienzler_models) (W := W)
       (Sample.kienzler_converter false)
     = Py.Ok (items, [error]) /\ length items = 4%nat)
  /\ (exists inputs error,
        Bfrk.get_static_parking_sites (M := Sample.bfrk_models) (W := W)
          Sample.bfrk_converter
        = Py.Ok (inputs, [error]) /\ length inputs = 4%nat).
Proof.
  intros W.
  destruct (validation_failure_does_not_abort
              (MK := Sample.kienzler_models) (MB := Sample.bfrk_models) (W := W)
              (Sample.kienzler_converter false) Sample.bfrk_converter
              [Sample.raw_record "101"; Sample.raw_record "102"]
              [Sample.raw_record "104"; Sample.raw_record "105"]
              [Sample.bfrk_record "201" (JInt 4); Sample.bfrk_record "202" (JInt 6)]
              [Sample.bfrk_record "204" (JInt 8); Sample.bfrk_record "205" (JInt 2)]
              (Sample.malformed_record "103") (Sample.bfrk_record "203" (JStr "four"))
              {| ValidationError.to_dict := JObj {[ "code" := JStr "field_errors" ]} |}
              {| ValidationError.to_dict := JObj {[ "code" := JStr "field_errors" ]} |})
    as [Hk Hb].
  - vm_compute. reflexivity.
  - vm_compute. reflexivity.
  - vm_compute. reflexivity.
  - vm_compute. reflexivity.
  - split.
    + eexists _, _. split; [exact Hk | reflexivity].
    + eexists _, _. split; [exact Hb | reflexivity].
Defined.

Lemma request_chunks_witness :
  let self := Kienzler.KienzlerBikeAndRidePullConverter (Sample.config Sample.sixty_ids) false in
  let W := Sample.surroundings "" [] [] in
  let ids := Py.split_char "," Sample.sixty_ids in
  let requests :=
    request_for self <$> [take 25 ids; take 25 (drop 25 ids); drop 50 ids] in
  length ids = 60%nat
  /\ Kienzler._request_trace (W := W) self
     = Py.Ok (requests, concat (imap (Sample.respond "") requests)).
Proof.
  intros self W ids requests.
  destruct (request_chunks (W := W) self Sample.sixty_ids (Sample.respond ""))
    as (Htrace & _).
  - vm_compute. reflexivity.
  - intros k rq. reflexivity.
  - split; [vm_compute; reflexivity|].
    etransitivity; [exact Htrace|]. vm_compute. reflexivity.
Defined.

(** The BFRK converter on five records of which the third has a string
    for its capacity: four canonical records and one error, which
    carries the identifier of the third record. *)
Example bfrk_import_error_identifier :
  let W := Sample.surroundings "" (JObj <$> Sample.bfrk_feed) [] in
  exists inputs error,
    Bfrk.get_static_parking_sites (M := Sample.bfrk_models) (W := W) Sample.bfrk_converter
    = Py.Ok (inputs, [error])
    /\ length inputs = 4%nat
    /\ ImportParkingSiteException.parking_site_uid error = JStr "203".
Proof.
  intros W. eexists _, _. split_and!.
  - unfold Bfrk.get_static_parking_sites. cbn. reflexivity.
  - reflexivity.
  - reflexivity.
Qed.

Lemma kienzler_import_error_identifier_witness :
  let self := Sample.kienzler_converter false in
  let W := Sample.surroundings "103" [] [] in
  Sample.malformed_record "103" !! "id" = Some (JStr "103")
  /\ exists items error,
       Kienzler._get_kienzler_parking_sites (M := Sample.kienzler_models) (W := W) self
       = Py.Ok (items, [error])
       /\ length items = 4%nat
       /\ ImportParkingSiteException.parking_site_uid error = JNull
       /\ ImportParkingSiteException.parking_site_uid error <> JStr "103".
Proof.
  intros self W. split; [vm_compute; reflexivity|].
  destruct (kienzler_import_error_identifier
              (MK := Sample.kienzler_models) (W := W) self
              [Sample.raw_record "101"; Sample.raw_record "102"]
              [Sample.raw_record "104"; Sample.raw_record "105"]
              (Sample.malformed_record "103")
              {| ValidationError.to_dict := JObj {[ "code" := JStr "field_errors" ]} |}
              (JStr "103"))
    as (error & Hret & Huid & Hne).
  - vm_compute. reflexivity.
  - vm_compute. reflexivity.
  - vm_compute. reflexivity.
  - discriminate.
  - vm_compute. reflexivity.
  - eexists _, error. split_and!; [exact Hret | reflexivity | exact Huid | exact Hne].
Defined.

Lemma kienzler_overlay_not_applied_witness :
  let self := Sample.kienzler_converter true in
  let overlay := Sample.overlay_record <$> Sample.five_ids in
  let W := Sample.surroundings "" [] overlay in
  exists inputs,
    Kienzler.get_static_parking_sites (M := Sample.kienzler_models) (W := W) self
    = Py.Ok (inputs, [])
    /\ length inputs = 5%nat
    /\ StaticParkingSiteInput.uid <$> inputs = Sample.five_ids
    /\ StaticParkingSiteInput.uid <$> overlay = Sample.five_ids
    /\ Forall (fun o => StaticParkingSiteInput.fields o !! "address"
                        = Some (VStr "Bahnhofstr. 1")) overlay
    /\ Forall (fun r => StaticParkingSiteInput.fields r !! "address" = None) inputs.
Proof.
  intros self overlay W. eexists. split_and!.
  - apply (kienzler_overlay_not_applied (M := Sample.kienzler_models) (W := W) self
             (Sample.kienzler_input <$> Sample.five_ids) [] overlay []).
    + vm_compute. reflexivity.
    + reflexivity.
    + reflexivity.
  - reflexivity.
  - reflexivity.
  - reflexivity.
  - repeat constructor.
  - repeat constructor.
Defined.

(* ===================================================================== *)
(** ** RadVIS: description, identifiers, groups                            *)
(* ===================================================================== *)

Lemma chars_app (s1 s2 : string) : chars (s1 +:+ s2) = chars s1 ++ chars s2.
Proof.
  unfold chars. induction s1 as [|a s1 IH]; [done|].
  simpl. by rewrite IH.
Qed.

(** [replace] with an empty replacement removes the character. *)
Lemma chars_replace_char_remove (c : ascii) (s : string) :
  chars (Py.replace_char c "" s) = filter (fun a => a <> c) (chars s).
Proof.
  unfold chars. induction s as [|a s IH]; [done|].
  simpl. destruct (Ascii.eqb_spec a c) as [->|Hne].
  - rewrite filter_cons_False by (intros H; by apply H). exact IH.
  - rewrite filter_cons_True by done. simpl. by rewrite IH.
Qed.

(** [replace] with a replacement of one character substitutes it. *)
Lemma chars_replace_char_subst (c b : ascii) (s : string) :
  chars (Py.replace_char c (String b "") s)
  = (fun a => if Ascii.eqb a c then b else a) <$> chars s.
Proof.
  unfold chars. induction s as [|a s IH]; [done|].
  cbn [Py.replace_char list_ascii_of_string fmap list_fmap].
  destruct (Ascii.eqb a c).
  - change (String b "" +:+ ?x) with (String b x). cbn [list_ascii_of_string].
    f_equal. exact IH.
  - cbn [list_ascii_of_string]. f_equal. exact IH.
Qed.

(** The text from which [to_dicts] makes the description. *)
Lemma description_of_source (r : Radvis.RadvisFeaturePropertiesInput) (d : string) :
  Radvis.description_of r = Some d ->
  exists text,
    d = Py.replace_char Py.LF " " (Py.replace_char Py.CR "" text)
    /\ (text = default "" (Radvis.beschreibung r) +:+ " "
               +:+ default "" (Radvis.weitere_information r)
        \/ Radvis.beschreibung r = Some text
        \/ Radvis.weitere_information r = Some text).
Proof.
  unfold Radvis.description_of.
  destruct (Py.truthy_str (Radvis.beschreibung r)) eqn:Hb,
           (Py.truthy_str (Radvis.weitere_information r)) eqn:Hw; simpl.
  - intros [= <-]. eauto.
  - destruct (Radvis.beschreibung r) as [b|]; [|done]. intros [= <-]. eauto.
  - destruct (Radvis.weitere_information r) as [w|]; [|done]. intros [= <-]. eauto.
  - done.
Qed.

(** X1. The description of every dict that [to_dicts] returns is free of
    carriage returns and line feeds: it is the source text with every
    carriage return dropped and every line feed turned into a space, all
    other characters kept in their order. *)
Theorem description_has_no_line_breaks
    (r : Radvis.RadvisFeaturePropertiesInput) (now : datetime)
    (dict : gmap string value) (d : string) :
  dict ∈ Radvis.to_dicts r now ->
  dict !! "description" = Some (VStr d) ->
  (Py.CR ∉ chars d)
  /\ (Py.LF ∉ chars d)
  /\ exists text,
       (text = default "" (Radvis.beschreibung r) +:+ " "
               +:+ default "" (Radvis.weitere_information r)
        \/ Radvis.beschreibung r = Some text
        \/ Radvis.weitere_information r = Some text)
       /\ chars d
          = (fun a => if Ascii.eqb a Py.LF then " "%char else a)
              <$> filter (fun a => a <> Py.CR) (chars text).
Proof.
  intros Hd Hdesc.
  rewrite (to_dicts_base_data r now dict "description" Hd) in Hdesc
    by (unfold base_data_keys; set_solver).
  revert Hdesc. unfold Radvis.base_data. dict_lookup.
  destruct (Radvis.description_of r) as [d'|] eqn:Hdes; [|done].
  intros [= ->].
  destruct (description_of_source r d Hdes) as (text & -> & Htext).
  assert (chars (Py.replace_char Py.LF " " (Py.replace_char Py.CR "" text))
          = (fun a => if Ascii.eqb a Py.LF then " "%char else a)
              <$> filter (fun a => a <> Py.CR) (chars text)) as Hchars.
  { by rewrite chars_replace_char_subst, chars_replace_char_remove. }
  split_and!.
  - rewrite Hchars. intros Hin.
    apply list_elem_of_fmap in Hin as (a & Ha & Hin).
    apply list_elem_of_filter in Hin as [Hne _].
    destruct (Ascii.eqb_spec a Py.LF); [discriminate | congruence].
  - rewrite Hchars. intros Hin.
    apply list_elem_of_fmap in Hin as (a & Ha & _).
    destruct (Ascii.eqb_spec a Py.LF); [discriminate | congruence].
  - eauto.
Qed.

(** X2. [to_dicts] leaves the description unset exactly when both source
    texts are missing or empty: an empty string counts as absent. *)
Theorem description_unset_iff
    (r : Radvis.RadvisFeaturePropertiesInput) (now : datetime) (dict : gmap string value) :
  dict ∈ Radvis.to_dicts r now ->
  (dict !! "description" = Some VNone
   <-> (Radvis.beschreibung r = None \/ Radvis.beschreibung r = Some "")
       /\ (Radvis.weitere_information r = None \/ Radvis.weitere_information r = Some "")).
Proof.
  intros Hd.
  rewrite (to_dicts_base_data r now dict "description" Hd)
    by (unfold base_data_keys; set_solver).
  unfold Radvis.base_data. dict_lookup. unfold Radvis.description_of.
  destruct (Radvis.beschreibung r) as [[|a b]|], (Radvis.weitere_information r) as [[|c w]|];
    simpl; split; try done; try (intros [[?|?] [?|?]]; done); eauto.
Qed.

(** The decimal digits. *)
Lemma pretty_N_char_digit (x : N) : pretty_N_char x ∈ chars "0123456789".
Proof.
  unfold pretty_N_char, chars. simpl.
  repeat case_match; set_solver.
Qed.

Lemma pretty_N_go_chars (x : N) (s : string) (c : ascii) :
  c ∈ chars (pretty_N_go x s) -> c ∈ chars s \/ c ∈ chars "0123456789".
Proof.
  revert s. induction (N.lt_wf_0 x) as [x _ IH]; intros s Hc.
  assert (x = 0 ∨ 0 < x)%N as [->|Hpos] by lia.
  - rewrite pretty_N_go_0 in Hc. by left.
  - rewrite pretty_N_go_step in Hc by done.
    apply IH in Hc; [|by apply N.div_lt].
    destruct Hc as [Hc|Hc]; [|by right].
    unfold chars in Hc. simpl in Hc. apply elem_of_cons in Hc as [Heq|Hc]; [|by left].
    right. subst c. apply pretty_N_char_digit.
Qed.

(** [str(i)] consists of digits, after a minus sign at most. *)
Lemma str_int_chars (i : Z) (c : ascii) :
  c ∈ chars (Py.str_int i) -> c = "-"%char \/ c ∈ chars "0123456789".
Proof.
  unfold Py.str_int, pretty, pretty_Z.
  destruct i as [|p|p].
  - intros Hc. right. unfold chars in *. simpl in *.
    apply list_elem_of_singleton in Hc as ->. apply list_elem_of_here.
  - unfold pretty, pretty_positive, pretty, pretty_N. rewrite decide_False by done.
    intros Hc. apply pretty_N_go_chars in Hc as [Hnil|Hd]; [|by right].
    by apply elem_of_nil in Hnil.
  - unfold pretty, pretty_positive, pretty, pretty_N. rewrite decide_False by done.
    rewrite chars_app. intros Hc. apply elem_of_app in Hc as [Hdash|Hc].
    + left. unfold chars in Hdash. simpl in Hdash.
      by apply list_elem_of_singleton in Hdash.
    + apply pretty_N_go_chars in Hc as [Hnil|Hd]; [|by right].
      by apply elem_of_nil in Hnil.
Qed.

Lemma chars_inj (s1 s2 : string) : chars s1 = chars s2 -> s1 = s2.
Proof.
  unfold chars. intros H.
  rewrite <- (string_of_list_ascii_of_string s1), <- (string_of_list_ascii_of_string s2).
  by rewrite H.
Qed.

Lemma str_int_lockbox_ne (i j : Z) : Py.str_int i <> Py.str_int j +:+ "-lockbox".
Proof.
  intros Heq.
  assert ("l"%char ∈ chars (Py.str_int i)) as Hl.
  { rewrite Heq, chars_app. apply elem_of_app. right. unfold chars. simpl. set_solver. }
  apply str_int_chars in Hl as [Hl|Hl]; [discriminate|].
  unfold chars in Hl. simpl in Hl.
  repeat (apply elem_of_cons in Hl as [Hl|Hl]; [discriminate|]).
  by apply elem_of_nil in Hl.
Qed.

Lemma str_int_lockbox_inj (i j : Z) :
  Py.str_int i +:+ "-lockbox" = Py.str_int j +:+ "-lockbox" -> i = j.
Proof.
  intros Heq. apply (f_equal chars) in Heq. rewrite !chars_app in Heq.
  apply app_inv_tail, chars_inj in Heq.
  unfold Py.str_int in Heq. by apply (inj pretty) in Heq.
Qed.

(** The identifiers of the dicts of one record. *)
Lemma uids_of_to_dicts (r : Radvis.RadvisFeaturePropertiesInput) (now : datetime) :
  uids_of (Radvis.to_dicts r now)
  = VStr (Py.str_int (Radvis.id r))
    :: (if Py.truthy_int (Radvis.anzahl_schliessfaecher r)
        then [VStr (Py.str_int (Radvis.id r) +:+ "-lockbox")] else []).
Proof.
  unfold uids_of, Radvis.to_dicts, Radvis.base_data.
  destruct (Py.truthy_int _); cbn [alter list_alter app omap list_omap];
    rewrite ?lookup_insert_ne by discriminate; dict_lookup.
Qed.

Lemma uids_of_batch (rs : list Radvis.RadvisFeaturePropertiesInput) (now : datetime)
    (x : value) :
  x ∈ uids_of (concat ((fun r => Radvis.to_dicts r now) <$> rs)) ->
  exists r, r ∈ rs
    /\ (x = VStr (Py.str_int (Radvis.id r))
        \/ x = VStr (Py.str_int (Radvis.id r) +:+ "-lockbox")).
Proof.
  induction rs as [|r rs IH]; cbn [fmap list_fmap concat].
  - intros Hx. by apply elem_of_nil in Hx.
  - unfold uids_of in *. rewrite omap_app. fold (uids_of (Radvis.to_dicts r now)).
    rewrite uids_of_to_dicts. intros Hx. apply elem_of_app in Hx as [Hx|Hx].
    + exists r. split; [by left|].
      apply elem_of_cons in Hx as [->|Hx]; [by left|].
      destruct (Py.truthy_int _); [|by apply elem_of_nil in Hx].
      apply list_elem_of_singleton in Hx as ->. by right.
    + destruct (IH Hx) as (r' & Hr' & Hcase). exists r'. split; [by right | done].
Qed.

(** X3. The identifiers that [to_dicts] gives to the records of a batch
    are pairwise different, and every dict has one, when the [id]s of
    the source records are pairwise different: the identifier of a
    locker record never meets the identifier of another record. *)
Theorem to_dicts_uids_unique
    (rs : list Radvis.RadvisFeaturePropertiesInput) (now : datetime) :
  NoDup (Radvis.id <$> rs) ->
  let dicts := concat ((fun r => Radvis.to_dicts r now) <$> rs) in
  NoDup (uids_of dicts) /\ length (uids_of dicts) = length dicts.
Proof.
  intros Hnd dicts. subst dicts. split.
  - induction rs as [|r rs IH]; cbn [fmap list_fmap concat]; [constructor|].
    apply NoDup_cons in Hnd as [Hr Hnd].
    unfold uids_of. rewrite omap_app. fold (uids_of (Radvis.to_dicts r now)).
    apply NoDup_app. split_and!.
    + rewrite uids_of_to_dicts. destruct (Py.truthy_int _).
      * apply NoDup_cons. split; [|apply NoDup_singleton].
        intros Hin. apply list_elem_of_singleton in Hin.
        injection Hin as Hin. by apply str_int_lockbox_ne in Hin.
      * apply NoDup_singleton.
    + intros x Hx Hrest.
      apply (uids_of_batch rs now x) in Hrest as (r' & Hr' & Hcase).
      assert (Radvis.id r <> Radvis.id r') as Hne.
      { intros Heq. apply Hr. rewrite Heq. by apply list_elem_of_fmap_2. }
      rewrite uids_of_to_dicts in Hx.
      apply elem_of_cons in Hx as [->|Hx].
      * destruct Hcase as [[= Heq]|[= Heq]].
        -- unfold Py.str_int in Heq. by apply (inj pretty) in Heq.
        -- by apply str_int_lockbox_ne in Heq.
      * destruct (Py.truthy_int _); [|by apply elem_of_nil in Hx].
        apply list_elem_of_singleton in Hx as ->.
        destruct Hcase as [[= Heq]|[= Heq]].
        -- symmetry in Heq. by apply str_int_lockbox_ne in Heq.
        -- by apply str_int_lockbox_inj in Heq.
    + by apply IH.
  - induction rs as [|r rs IH]; cbn [fmap list_fmap concat]; [done|].
    apply NoDup_cons in Hnd as [_ Hnd].
    unfold uids_of in *. rewrite omap_app, !length_app, IH by done.
    fold (uids_of (Radvis.to_dicts r now)). rewrite uids_of_to_dicts.
    unfold Radvis.to_dicts. destruct (Py.truthy_int _); reflexivity.
Qed.

Lemma to_parking_site_type_not_lockbox (v : RadvisParkingSiteType.t) :
  RadvisParkingSiteType.to_parking_site_type v <> ParkingSiteType.LOCKBOX.
Proof. by destruct v. Qed.

(** The dicts of [to_dicts]: the parent, with or without group
    identifier, or the locker record. *)
Lemma to_dicts_cases (r : Radvis.RadvisFeaturePropertiesInput) (now : datetime)
    (d : gmap string value) :
  d ∈ Radvis.to_dicts r now ->
  (d !! "uid" = Some (VStr (Py.str_int (Radvis.id r)))
   /\ d !! "purpose" = Some (VPurposeType PurposeType.BIKE)
   /\ d !! "type"
      = Some (VParkingSiteType
                (RadvisParkingSiteType.to_parking_site_type (Radvis.stellplatzart r)))
   /\ d !! "capacity" = Some (VInt (Radvis.anzahl_stellplaetze r)))
  \/ (Py.truthy_int (Radvis.anzahl_schliessfaecher r) = true
      /\ d !! "uid" = Some (VStr (Py.str_int (Radvis.id r) +:+ "-lockbox"))
      /\ d !! "purpose" = Some (VPurposeType PurposeType.ITEM)
      /\ d !! "type" = Some (VParkingSiteType ParkingSiteType.LOCKBOX)
      /\ d !! "capacity" = Some (of_opt VInt (Radvis.anzahl_schliessfaecher r))).
Proof.
  unfold Radvis.to_dicts, Radvis.base_data.
  destruct (Py.truthy_int _) eqn:Ht; cbn [alter list_alter app]; intros Hd.
  - apply elem_of_cons in Hd as [->|Hd].
    + left. rewrite !lookup_insert_ne by discriminate. split_and!; dict_lookup.
    + apply list_elem_of_singleton in Hd as ->. right.
      split; [done|]. split_and!; dict_lookup.
  - apply list_elem_of_singleton in Hd as ->. left. split_and!; dict_lookup.
Qed.

(** X4. [to_parking_site_type] maps different RadVIS types to different
    site types and never answers [LOCKBOX].  So in the dicts of
    [to_dicts] the type [LOCKBOX], the purpose [ITEM] and the identifier
    with the suffix [-lockbox] come together: they mark the locker
    record, and only it. *)
Theorem lockbox_marks_locker_record
    (r : Radvis.RadvisFeaturePropertiesInput) (now : datetime) (d : gmap string value) :
  d ∈ Radvis.to_dicts r now ->
  (forall v w, RadvisParkingSiteType.to_parking_site_type v
               = RadvisParkingSiteType.to_parking_site_type w -> v = w)
  /\ (d !! "type" = Some (VParkingSiteType ParkingSiteType.LOCKBOX)
      <-> d !! "purpose" = Some (VPurposeType PurposeType.ITEM))
  /\ (d !! "type" = Some (VParkingSiteType ParkingSiteType.LOCKBOX)
      <-> d !! "uid" = Some (VStr (Py.str_int (Radvis.id r) +:+ "-lockbox")))
  /\ (d !! "type" <> Some (VParkingSiteType ParkingSiteType.LOCKBOX)
      <-> d !! "uid" = Some (VStr (Py.str_int (Radvis.id r)))).
Proof.
  intros Hd. split; [by intros [] [] |].
  pose proof (to_parking_site_type_not_lockbox (Radvis.stellplatzart r)) as Hno.
  pose proof (str_int_lockbox_ne (Radvis.id r) (Radvis.id r)) as Hsfx.
  destruct (to_dicts_cases r now d Hd) as [(Hu & Hp & Ht & _)|(_ & Hu & Hp & Ht & _)];
    rewrite Hu, Hp, Ht; split_and!; split; intros H; try done; try congruence.
Qed.

(** X5. Every dict of one record carries the same group identifier: the
    identifier of the parent when the record has lockers; without
    lockers the single dict has no group identifier at all. *)
Theorem to_dicts_group_uid
    (r : Radvis.RadvisFeaturePropertiesInput) (now : datetime) (d : gmap string value) :
  d ∈ Radvis.to_dicts r now ->
  d !! "group_uid"
  = (if Py.truthy_int (Radvis.anzahl_schliessfaecher r)
     then Some (VStr (Py.str_int (Radvis.id r))) else None)
  /\ head (uids_of (Radvis.to_dicts r now)) = Some (VStr (Py.str_int (Radvis.id r))).
Proof.
  intros Hd. split; [|by rewrite uids_of_to_dicts].
  revert Hd. unfold Radvis.to_dicts, Radvis.base_data.
  destruct (Py.truthy_int _); cbn [alter list_alter app]; intros Hd;
    repeat (apply elem_of_cons in Hd as [->|Hd]); try (by apply elem_of_nil in Hd);
    dict_lookup.
Qed.

(** X6. [to_related_location] has a label for every location type but
    [UNBEKANNT] and [SONSTIGES], for which it answers [None], and
    different location types have different labels. *)
Theorem to_related_location_labels (v w : LocationType.t) :
  (LocationType.to_related_location v = None
   <-> v = LocationType.UNBEKANNT \/ v = LocationType.SONSTIGES)
  /\ (is_Some (LocationType.to_related_location v) ->
      LocationType.to_related_location v = LocationType.to_related_location w -> v = w).
Proof.
  split.
  - split; [destruct v; (done || eauto) | by intros [->| ->]].
  - intros [l Hl]. destruct v, w; try done; vm_compute in Hl; discriminate.
Qed.

(* ===================================================================== *)
(** ** Kienzler: the overlay index and the writes of the merge loop       *)
(* ===================================================================== *)

Lemma index_by_uid_snoc (gs : list StaticParkingSiteInput.t) (g : StaticParkingSiteInput.t) :
  Kienzler.index_by_uid (gs ++ [g])
  = <[StaticParkingSiteInput.uid g := length gs]> (Kienzler.index_by_uid gs).
Proof.
  unfold Kienzler.index_by_uid. rewrite imap_app, fold_left_app. simpl.
  by rewrite Nat.add_0_r.
Qed.

Lemma index_by_uid_lookup (gs : list StaticParkingSiteInput.t) (u : string) :
  match Kienzler.index_by_uid gs !! u with
  | Some j =>
      exists g, gs !! j = Some g /\ StaticParkingSiteInput.uid g = u
        /\ forall j' g', gs !! j' = Some g' -> StaticParkingSiteInput.uid g' = u ->
                         (j' <= j)%nat
  | None => forall g, g ∈ gs -> StaticParkingSiteInput.uid g <> u
  end.
Proof.
  induction gs as [|g gs IH] using rev_ind.
  - unfold Kienzler.index_by_uid. simpl. rewrite lookup_empty.
    intros g Hg. by apply elem_of_nil in Hg.
  - rewrite index_by_uid_snoc, lookup_insert.
    case_decide as Hu.
    + exists g. split_and!.
      * by rewrite lookup_app_r, Nat.sub_diag.
      * done.
      * intros j' g' Hj' _. apply lookup_lt_Some in Hj'.
        rewrite length_app in Hj'. simpl in Hj'. lia.
    + destruct (Kienzler.index_by_uid gs !! u) as [j|].
      * destruct IH as (g0 & Hj & Hg0 & Hlast). exists g0. split_and!.
        -- by rewrite lookup_app_l by (by eapply lookup_lt_Some).
        -- done.
        -- intros j' g' Hj' Hg'.
           destruct (decide (j' < length gs)%nat) as [Hlt|Hge].
           ++ rewrite lookup_app_l in Hj' by done. by eapply Hlast.
           ++ rewrite lookup_app_r in Hj' by lia.
              destruct (j' - length gs)%nat; simpl in Hj'; [|done].
              injection Hj' as <-. done.
      * intros g' Hg'. apply elem_of_app in Hg' as [Hg'|Hg'].
        -- by apply IH.
        -- apply list_elem_of_singleton in Hg' as ->. done.
Qed.

(** X7. The overlay index [static_geojson_parking_site_inputs_by_uid]
    knows an identifier exactly when some overlay record has it, and
    then it points to the last overlay record with that identifier: of
    two overlay records with one identifier, the later one wins. *)
Theorem index_by_uid_last_wins (gs : list StaticParkingSiteInput.t) (u : string) :
  (Kienzler.index_by_uid gs !! u = None
   <-> forall g, g ∈ gs -> StaticParkingSiteInput.uid g <> u)
  /\ (forall j, Kienzler.index_by_uid gs !! u = Some j ->
        exists g, gs !! j = Some g /\ StaticParkingSiteInput.uid g = u
          /\ forall j' g', gs !! j' = Some g' -> StaticParkingSiteInput.uid g' = u ->
                           (j' <= j)%nat).
Proof.
  pose proof (index_by_uid_lookup gs u) as H.
  destruct (Kienzler.index_by_uid gs !! u) as [j|] eqn:Hj.
  - split.
    + split; [done|]. intros Hno. destruct H as (g & Hg & Hu & _).
      exfalso. apply (Hno g); [|done]. by eapply list_elem_of_lookup_2.
    + intros j' [= <-]. exact H.
  - split; [done | by intros j [=]].
Qed.

Section MergeWrites.
Context `{M : Kienzler.Models}.

Implicit Types (st : Kienzler.Store) (by_uid : gmap string nat).

Lemma merge_step_lengths by_uid st i :
  let st' := Kienzler.merge_step by_uid st i in
  length (Kienzler.kienzler_objs st') = length (Kienzler.kienzler_objs st)
  /\ length (Kienzler.geojson_objs st') = length (Kienzler.geojson_objs st).
Proof.
  unfold Kienzler.merge_step.
  destruct (Kienzler.kienzler_objs st !! i) as [k|]; [|done].
  destruct (by_uid !! _) as [r|]; [|done].
  destruct (Kienzler.geojson_objs st !! r) as [g|]; [|done].
  destruct (Kienzler.extend_static_parking_site_input k g). simpl.
  by rewrite !length_insert.
Qed.

Lemma merge_steps_lengths by_uid (rounds : list nat) st :
  let st' := fold_left (Kienzler.merge_step by_uid) rounds st in
  length (Kienzler.kienzler_objs st') = length (Kienzler.kienzler_objs st)
  /\ length (Kienzler.geojson_objs st') = length (Kienzler.geojson_objs st).
Proof.
  revert st. induction rounds as [|i rounds IH]; intros st; simpl; [done|].
  destruct (IH (Kienzler.merge_step by_uid st i)) as [-> ->].
  apply merge_step_lengths.
Qed.

Lemma merge_steps_kienzler_frame by_uid (rounds : list nat) st i :
  i ∉ rounds ->
  Kienzler.kienzler_objs (fold_left (Kienzler.merge_step by_uid) rounds st) !! i
  = Kienzler.kienzler_objs st !! i.
Proof.
  revert st. induction rounds as [|j rounds IH]; intros st Hi; simpl; [done|].
  apply not_elem_of_cons in Hi as [Hij Hi].
  by rewrite IH, merge_step_kienzler_other.
Qed.

(** A round for a source record whose identifier does not point to the
    overlay record at [r] leaves that record alone. *)
Lemma merge_step_geojson_other by_uid st j r :
  (forall k, Kienzler.kienzler_objs st !! j = Some k ->
             by_uid !! Kienzler.str (Kienzler.id k) <> Some r) ->
  Kienzler.geojson_objs (Kienzler.merge_step by_uid st j) !! r
  = Kienzler.geojson_objs st !! r.
Proof.
  intros Hr. unfold Kienzler.merge_step.
  destruct (Kienzler.kienzler_objs st !! j) as [k|]; [|done].
  specialize (Hr k eq_refl).
  destruct (by_uid !! _) as [r'|]; [|done].
  destruct (Kienzler.geojson_objs st !! r') as [g|]; [|done].
  destruct (Kienzler.extend_static_parking_site_input k g). simpl.
  by rewrite list_lookup_insert_ne by congruence.
Qed.

Lemma merge_steps_geojson_frame by_uid (rounds : list nat) st r :
  NoDup rounds ->
  (forall j k, j ∈ rounds -> Kienzler.kienzler_objs st !! j = Some k ->
               by_uid !! Kienzler.str (Kienzler.id k) <> Some r) ->
  Kienzler.geojson_objs (fold_left (Kienzler.merge_step by_uid) rounds st) !! r
  = Kienzler.geojson_objs st !! r.
Proof.
  revert st. induction rounds as [|j rounds IH]; intros st Hnd Hr; simpl; [done|].
  apply NoDup_cons in Hnd as [Hj Hnd].
  rewrite IH; [| done |].
  - apply merge_step_geojson_other. intros k Hk. apply (Hr j k); [by left | done].
  - intros j' k Hj' Hk. apply (Hr j' k); [by right|].
    rewrite merge_step_kienzler_other in Hk; [done|]. by intros ->.
Qed.

(** X8. The merge loop neither adds nor removes a record, and it leaves
    alone every overlay record that the identifier of no source record
    points to. *)
Theorem merge_loop_untouched_overlay
    (self : Kienzler.KienzlerBasePullConverter)
    (ks : list Kienzler.KienzlerInput) (gs : list StaticParkingSiteInput.t) (r : nat) :
  let by_uid := Kienzler.index_by_uid gs in
  let after := Kienzler.merge_loop by_uid (Kienzler.store_before_merge self ks gs) in
  length (Kienzler.kienzler_objs after) = length ks
  /\ length (Kienzler.static_objs after) = length ks
  /\ length (Kienzler.geojson_objs after) = length gs
  /\ ((forall k, k ∈ ks -> by_uid !! Kienzler.str (Kienzler.id k) <> Some r) ->
      Kienzler.geojson_objs after !! r = gs !! r).
Proof.
  intros by_uid after. subst after. unfold Kienzler.merge_loop.
  destruct (merge_steps_lengths by_uid
              (seq 0 (length (Kienzler.kienzler_objs (Kienzler.store_before_merge self ks gs))))
              (Kienzler.store_before_merge self ks gs)) as [Hlk Hlg].
  split_and!.
  - exact Hlk.
  - rewrite merge_steps_static_objs. simpl. apply length_fmap.
  - exact Hlg.
  - intros Hno. rewrite merge_steps_geojson_frame; [done | apply NoDup_seq |].
    intros j k _ Hk. apply Hno. by eapply list_elem_of_lookup_2.
Qed.

(** X9. A hit.  When the identifier of the source record at position
    [i] points to the overlay record at [r], and no other source record
    has that identifier, then after the loop the source record and the
    overlay record are what [extend_static_parking_site_input] made of
    the two as they were before the loop, while the canonical record at
    [i] is the one built before the loop. *)
Theorem merge_loop_hit
    (self : Kienzler.KienzlerBasePullConverter)
    (ks : list Kienzler.KienzlerInput) (gs : list StaticParkingSiteInput.t)
    (i r : nat) (k : Kienzler.KienzlerInput) :
  let by_uid := Kienzler.index_by_uid gs in
  let after := Kienzler.merge_loop by_uid (Kienzler.store_before_merge self ks gs) in
  ks !! i = Some k ->
  by_uid !! Kienzler.str (Kienzler.id k) = Some r ->
  (forall j k', ks !! j = Some k' -> j <> i ->
                Kienzler.str (Kienzler.id k') <> Kienzler.str (Kienzler.id k)) ->
  exists g,
    gs !! r = Some g
    /\ StaticParkingSiteInput.uid g = Kienzler.str (Kienzler.id k)
    /\ Kienzler.kienzler_objs after !! i
       = Some (Kienzler.extend_static_parking_site_input k g).1
    /\ Kienzler.geojson_objs after !! r
       = Some (Kienzler.extend_static_parking_site_input k g).2
    /\ Kienzler.static_objs after !! i
       = Some (Kienzler.to_static_parking_site k
                 (SourceInfo.public_url (Kienzler.source_info self))).
Proof.
  intros by_uid after Hi Hr Huniq.
  pose proof (index_by_uid_lookup gs (Kienzler.str (Kienzler.id k))) as Hidx.
  fold by_uid in Hidx. rewrite Hr in Hidx. destruct Hidx as (g & Hg & Hu & _).
  exists g. split; [done|]. split; [done|].
  assert (forall j k', ks !! j = Some k' -> j <> i ->
                       by_uid !! Kienzler.str (Kienzler.id k') <> Some r) as Hother.
  { intros j k' Hj Hji Hr'.
    pose proof (index_by_uid_lookup gs (Kienzler.str (Kienzler.id k'))) as Hidx'.
    fold by_uid in Hidx'. rewrite Hr' in Hidx'. destruct Hidx' as (g' & Hg' & Hu' & _).
    rewrite Hg in Hg'. injection Hg' as <-.
    apply (Huniq j k' Hj Hji). congruence. }
  assert (i < length ks)%nat as Hlen by (by eapply lookup_lt_Some).
  set (before := Kienzler.store_before_merge self ks gs).
  assert (seq 0 (length (Kienzler.kienzler_objs before))
          = seq 0 i ++ i :: seq (S i) (length ks - S i)) as Hseq.
  { simpl. replace (length ks) with (i + S (length ks - S i))%nat at 1 by lia.
    by rewrite seq_app. }
  set (st1 := fold_left (Kienzler.merge_step by_uid) (seq 0 i) before).
  assert (Kienzler.kienzler_objs st1 !! i = Some k) as Hk1.
  { unfold st1. rewrite merge_steps_kienzler_frame; [done|].
    rewrite elem_of_seq. lia. }
  assert (Kienzler.geojson_objs st1 !! r = Some g) as Hg1.
  { unfold st1. rewrite merge_steps_geojson_frame; [done | apply NoDup_seq |].
    intros j k' Hj Hk'. apply elem_of_seq in Hj. apply (Hother j k' Hk'). lia. }
  set (st2 := Kienzler.merge_step by_uid st1 i).
  assert (Kienzler.kienzler_objs st2 !! i
            = Some (Kienzler.extend_static_parking_site_input k g).1
          /\ Kienzler.geojson_objs st2 !! r
            = Some (Kienzler.extend_static_parking_site_input k g).2) as [Hk2 Hg2].
  { unfold st2, Kienzler.merge_step. rewrite Hk1, Hr, Hg1.
    destruct (Kienzler.extend_static_parking_site_input k g) as [k' g']. simpl.
    split; apply list_lookup_insert_eq; by eapply lookup_lt_Some. }
  assert (forall j, (i < j)%nat -> Kienzler.kienzler_objs st2 !! j = ks !! j) as Hrest2.
  { intros j Hj. unfold st2. rewrite merge_step_kienzler_other by lia.
    unfold st1. rewrite merge_steps_kienzler_frame; [done|].
    rewrite elem_of_seq. lia. }
  assert (after = fold_left (Kienzler.merge_step by_uid)
                    (seq (S i) (length ks - S i)) st2) as ->.
  { subst after. unfold Kienzler.merge_loop. fold before. rewrite Hseq, fold_left_app.
    reflexivity. }
  split_and!.
  - rewrite merge_steps_kienzler_frame; [done|]. rewrite elem_of_seq. lia.
  - rewrite merge_steps_geojson_frame; [done | apply NoDup_seq |].
    intros j k' Hj Hk'. apply elem_of_seq in Hj.
    rewrite Hrest2 in Hk' by lia. apply (Hother j k' Hk'). lia.
  - rewrite merge_steps_static_objs. unfold st2. rewrite merge_step_static_objs.
    unfold st1. rewrite merge_steps_static_objs. simpl.
    by rewrite list_lookup_fmap, Hi.
Qed.

End MergeWrites.

(* ===================================================================== *)
(** ** Kienzler: configuration, requests and their failures               *)
(* ===================================================================== *)

Lemma for_each_app {A S} (body : A -> S -> result S) (xs ys : list A) (st : S) :
  for_each body (xs ++ ys) st
  = match for_each body xs st with
    | Py.Ok st' => for_each body ys st'
    | Py.Raise e => Py.Raise e
    end.
Proof.
  revert st. induction xs as [|x xs IH]; intros st; simpl; [done|].
  destruct (body x st); [apply IH | done].
Qed.

Lemma split_char_not_nil (sep : ascii) (s : string) : Py.split_char sep s <> [].
Proof.
  destruct s as [|a s]; simpl; [done|].
  destruct (Ascii.eqb a sep); [done|]. by destruct (Py.split_char sep s).
Qed.

Lemma concat_cons_cons (sep x y : string) (l : list string) :
  String.concat sep (x :: y :: l) = x +:+ sep +:+ String.concat sep (y :: l).
Proof. reflexivity. Qed.

(** [sep.join(s.split(sep)) == s], and no part contains the separator. *)
Lemma join_split_char (s : string) :
  join_commas (Py.split_char "," s) = s
  /\ Forall (fun part => ","%char ∉ chars part) (Py.split_char "," s).
Proof.
  unfold join_commas. induction s as [|a s [IHj IHf]].
  - split; [done|]. repeat constructor. unfold chars. simpl. apply not_elem_of_nil.
  - cbn [Py.split_char]. pose proof (split_char_not_nil "," s) as Hne.
    destruct (Ascii.eqb_spec a ",") as [->|Ha].
    + destruct (Py.split_char "," s) as [|w ws]; [done|]. split.
      * rewrite concat_cons_cons, IHj. reflexivity.
      * constructor; [|done]. unfold chars. simpl. apply not_elem_of_nil.
    + destruct (Py.split_char "," s) as [|w ws]; [done|]. split.
      * destruct ws as [|w' ws].
        -- simpl in *. by rewrite IHj.
        -- rewrite concat_cons_cons.
           change (String a w +:+ ?x) with (String a (w +:+ x)).
           by rewrite <- concat_cons_cons, IHj.
      * apply Forall_cons in IHf as [Hw Hws]. constructor; [|done].
        unfold chars in *. simpl. apply not_elem_of_cons. split; [congruence | done].
Qed.

Section RequestFailures.
Context `{M : Kienzler.Models} `{R : !Kienzler.RealtimeModels} `{W : Surroundings}.

Implicit Types (self : Kienzler.KienzlerBasePullConverter).

(** The loop of [_request] as long as the requests are answered. *)
Lemma request_loop_upto self (ids : list string)
    (respond : nat -> Request.t -> list json) (rounds : list nat) sent result_dicts :
  let request_at := fun i : nat => request_for self (Py.slice ids i (i + 25)) in
  Kienzler.configured_ids self = Py.Ok ids ->
  (forall k rq, (length sent <= k < length sent + length rounds)%nat ->
                requests_post k rq = Py.Ok (respond k rq)) ->
  for_each (Kienzler._request_body self) rounds (sent, result_dicts)
  = Py.Ok (sent ++ (request_at <$> rounds),
           result_dicts
           ++ concat (imap (fun j => respond (length sent + j)%nat) (request_at <$> rounds))).
Proof.
  intros request_at Hids. revert sent result_dicts.
  induction rounds as [|i rounds IH]; intros sent result_dicts Hpost.
  - simpl. by rewrite !app_nil_r.
  - cbn [for_each]. unfold Kienzler._request_body at 1.
    rewrite Hids, Hpost by (simpl; lia). cbn [fst snd].
    change (Py.slice ids i (i + 25)) with (Request.ids (request_at i)).
    change {| Request.url := _; Request.ids := Request.ids (request_at i) |}
      with (request_at i).
    rewrite IH.
    + cbn [fmap list_fmap imap concat].
      rewrite <- !app_assoc. cbn [app]. rewrite Nat.add_0_r, length_app. cbn [length].
      do 5 f_equal. apply imap_ext. intros j rq _. simpl. f_equal. lia.
    + intros k rq Hk. apply Hpost. rewrite length_app in Hk. simpl in *. lia.
Qed.

(** The requests of [_request] and its result, when the identifiers are
    configured and every request is answered. *)
Lemma request_trace_ok self (s : string) (respond : nat -> Request.t -> list json) :
  let ids := Py.split_char "," s in
  let chunks :=
    (fun k => take 25 (drop (25 * k) ids)) <$> seq 0 ((length ids + 24) / 25)%nat in
  Kienzler.config_helper self !! Kienzler.config_key self "IDS" = Some s ->
  (forall k rq, requests_post k rq = Py.Ok (respond k rq)) ->
  Kienzler._request_trace self
  = Py.Ok (request_for self <$> chunks, concat (imap respond (request_for self <$> chunks)))
  /\ concat chunks = ids.
Proof.
  intros ids chunks Hcfg Hpost.
  assert (Kienzler.configured_ids self = Py.Ok ids) as Hids.
  { unfold Kienzler.configured_ids. by rewrite Hcfg. }
  split.
  - unfold Kienzler._request_trace. rewrite Hids.
    rewrite (request_loop_upto self ids respond) by done. cbn [app length].
    rewrite (range_closed (length ids) (length ids) 0) by lia.
    rewrite Nat.sub_0_r.
    assert ((fun i : nat => request_for self (Py.slice ids i (i + 25)))
              <$> ((fun j : nat => (0 + 25 * j)%nat)
                     <$> seq 0 ((length ids + 24) / 25)%nat)
            = request_for self <$> chunks) as ->; [|done].
    subst chunks. rewrite <- !list_fmap_compose.
    apply list_fmap_ext. intros ? k _. simpl. unfold Py.slice.
    do 2 f_equal; lia.
  - subst chunks. rewrite concat_chunks. apply take_ge, ceil_div_covers.
Qed.

(** X10. A request that fails is fatal.  When the provider answers the
    requests before request number [k] and request [k] raises, then
    [_request] raises that exception, and so do
    [_get_kienzler_parking_sites], [get_static_parking_sites] and
    [get_realtime_parking_sites]: the answers already received are not
    returned. *)
Theorem request_failure_is_fatal self (s : string)
    (respond : nat -> Request.t -> list json) (k : nat) (e : exn) :
  let ids := Py.split_char "," s in
  Kienzler.config_helper self !! Kienzler.config_key self "IDS" = Some s ->
  (k < (length ids + 24) / 25)%nat ->
  (forall j rq, (j < k)%nat -> requests_post j rq = Py.Ok (respond j rq)) ->
  requests_post k (request_for self (take 25 (drop (25 * k) ids))) = Py.Raise e ->
  Kienzler._request self = Py.Raise e
  /\ Kienzler._get_kienzler_parking_sites self = Py.Raise e
  /\ Kienzler.get_static_parking_sites self = Py.Raise e
  /\ Kienzler.get_realtime_parking_sites self = Py.Raise e.
Proof.
  intros ids Hcfg Hk Hpost Hfail.
  assert (Kienzler.configured_ids self = Py.Ok ids) as Hids.
  { unfold Kienzler.configured_ids. by rewrite Hcfg. }
  assert (Kienzler._request_trace self = Py.Raise e) as Htrace.
  { unfold Kienzler._request_trace. rewrite Hids.
    rewrite (range_closed (length ids) (length ids) 0) by lia.
    rewrite Nat.sub_0_r.
    replace ((length ids + 24) / 25)%nat
      with (k + S ((length ids + 24) / 25 - S k))%nat by lia.
    rewrite seq_app, fmap_app, for_each_app.
    rewrite (request_loop_upto self ids respond);
      [| done | intros j rq Hj; rewrite length_fmap, length_seq in Hj; simpl in Hj;
                apply Hpost; lia].
    cbn [seq fmap list_fmap for_each]. unfold Kienzler._request_body at 1.
    rewrite Hids. cbn [fst app]. rewrite !length_fmap, length_seq.
    unfold Py.slice.
    replace (0 + 25 * (0 + k) + 25 - (0 + 25 * (0 + k)))%nat with 25%nat by lia.
    replace (0 + 25 * (0 + k))%nat with (25 * k)%nat by lia.
    unfold request_for in Hfail. by rewrite Hfail. }
  assert (Kienzler._request self = Py.Raise e) as Hreq.
  { unfold Kienzler._request. by rewrite Htrace. }
  assert (Kienzler._get_kienzler_parking_sites self = Py.Raise e) as Hget.
  { unfold Kienzler._get_kienzler_parking_sites. by rewrite Hreq. }
  split_and!; [done | done | |].
  - unfold Kienzler.get_static_parking_sites, Kienzler.get_static_parking_sites_store.
    by rewrite Hget.
  - unfold Kienzler.get_realtime_parking_sites. by rewrite Hget.
Qed.

(** X11. When every key of [required_config_keys] is configured and the
    provider answers, [_request] succeeds, and every request it sends
    carries the configured user and password, the action [capacity], the
    context [unit], a timeout of 30 seconds and the JSON API address of
    the source. *)
Theorem required_config_keys_suffice self (respond : nat -> Request.t -> list json) :
  Forall (fun key => is_Some (Kienzler.config_helper self !! key))
         (Kienzler.required_config_keys self) ->
  (forall k rq, requests_post k rq = Py.Ok (respond k rq)) ->
  exists requests,
    Kienzler._request_trace self = Py.Ok (requests, concat (imap respond requests))
    /\ Forall (fun rq =>
                 Request.user rq
                 = Kienzler.config_helper self !! Kienzler.config_key self "USER"
                 /\ is_Some (Request.user rq)
                 /\ Request.password rq
                    = Kienzler.config_helper self !! Kienzler.config_key self "PASSWORD"
                 /\ is_Some (Request.password rq)
                 /\ Request.action rq = "capacity"
                 /\ Request.context rq = "unit"
                 /\ Request.timeout rq = 30%Z
                 /\ Request.url rq
                    = SourceInfo.source_url (Kienzler.source_info self)
                      +:+ "/index.php?eID=JSONAPI")
              requests.
Proof.
  unfold Kienzler.required_config_keys. intros Hkeys Hpost.
  apply Forall_cons in Hkeys as [Huser Hkeys].
  apply Forall_cons in Hkeys as [Hpassword Hkeys].
  apply Forall_cons in Hkeys as [[s Hids] _].
  destruct (request_trace_ok self s respond Hids Hpost) as [Htrace _].
  eexists. split; [exact Htrace|].
  apply Forall_fmap, Forall_forall. intros chunk _. simpl. done.
Qed.

(** X12. [_request] never sends nothing.  With the identifiers
    configured and the provider answering, at least one request is sent;
    for an empty list of identifiers it is one request that asks for the
    single identifier [''].  The identifiers sent are the parts of the
    configured string between its commas, unchanged: joined with commas
    they give the configured string back, and none contains a comma. *)
Theorem request_sends_configured_string self (s : string)
    (respond : nat -> Request.t -> list json) :
  Kienzler.config_helper self !! Kienzler.config_key self "IDS" = Some s ->
  (forall k rq, requests_post k rq = Py.Ok (respond k rq)) ->
  exists requests,
    Kienzler._request_trace self = Py.Ok (requests, concat (imap respond requests))
    /\ (1 <= length requests)%nat
    /\ (s = "" -> requests = [request_for self [""]])
    /\ join_commas (concat (Request.ids <$> requests)) = s
    /\ Forall (fun rq => Forall (fun i => ","%char ∉ chars i) (Request.ids rq)) requests.
Proof.
  intros Hcfg Hpost.
  destruct (request_trace_ok self s respond Hcfg Hpost) as [Htrace Hconcat].
  destruct (join_split_char s) as [Hjoin Hparts].
  eexists. split; [exact Htrace|].
  set (ids := Py.split_char "," s) in *.
  assert (1 <= length ids)%nat as Hlen.
  { pose proof (split_char_not_nil "," s) as Hne. fold ids in Hne.
    destruct ids; [done | simpl; lia]. }
  split_and!.
  - rewrite !length_fmap, length_seq.
    pose proof (Nat.div_mod_eq (length ids + 24) 25).
    pose proof (Nat.mod_upper_bound (length ids + 24) 25). lia.
  - intros ->. reflexivity.
  - rewrite <- list_fmap_compose.
    rewrite (list_fmap_ext _ id) by done. rewrite list_fmap_id.
    by rewrite Hconcat.
  - apply Forall_fmap, Forall_fmap, Forall_forall. intros k _. simpl.
    apply Forall_forall. intros i Hi.
    eapply elem_of_sublist in Hi; [|apply sublist_take].
    eapply elem_of_sublist in Hi; [|apply sublist_drop].
    revert i Hi. by apply Forall_forall.
Qed.

End RequestFailures.

(** X13. Without the key of the identifiers in the configuration,
    [_request] raises an [AttributeError] before any request is sent:
    whatever the surroundings are, the static and the realtime operation
    both end with it. *)
Theorem missing_ids_raises `{M : Kienzler.Models} `{R : !Kienzler.RealtimeModels}
    `{W : Surroundings} (self : Kienzler.KienzlerBasePullConverter) :
  let e := AttributeError "'NoneType' object has no attribute 'split'" in
  Kienzler.config_helper self !! Kienzler.config_key self "IDS" = None ->
  Kienzler._request_trace self = Py.Raise e
  /\ Kienzler.get_static_parking_sites self = Py.Raise e
  /\ Kienzler.get_realtime_parking_sites self = Py.Raise e.
Proof.
  intros e Hcfg.
  assert (Kienzler._request_trace self = Py.Raise e) as Htrace.
  { unfold Kienzler._request_trace, Kienzler.configured_ids. by rewrite Hcfg. }
  split_and!; [exact Htrace | |].
  - unfold Kienzler.get_static_parking_sites, Kienzler.get_static_parking_sites_store,
      Kienzler._get_kienzler_parking_sites, Kienzler._request.
    by rewrite Htrace.
  - unfold Kienzler.get_realtime_parking_sites,
      Kienzler._get_kienzler_parking_sites, Kienzler._request.
    by rewrite Htrace.
Qed.

(* ===================================================================== *)
(** ** The operations end to end                                          *)
(* ===================================================================== *)

Lemma rejected_nil {R E A X} (validate : R -> Py.result E A) (report : R -> E -> X)
    (batch : list R) :
  (forall d, d ∈ batch -> exists a, validate d = Py.Ok a) ->
  rejected validate report batch = [] /\ length (accepted validate batch) = length batch.
Proof.
  induction batch as [|d batch IH]; intros Hall; [done|].
  destruct (Hall d) as [a Ha]; [by left|].
  destruct IH as [IHr IHa]; [intros d' Hd'; apply Hall; by right|].
  unfold accepted, rejected in *. cbn. rewrite Ha. cbn. rewrite IHr, IHa. done.
Qed.

Lemma rejected_source_uid `{W : Surroundings} (self : Kienzler.KienzlerBasePullConverter)
    {A} (validate : RawRecord -> Py.result ValidationError.t A) (batch : list RawRecord) :
  Forall (fun error => ImportParkingSiteException.source_uid error
                       = SourceInfo.uid (Kienzler.source_info self))
         (rejected validate (Kienzler.kienzler_import_error self) batch).
Proof.
  unfold rejected. apply Forall_forall. intros error Herr.
  apply list_elem_of_omap in Herr as (d & _ & Hd).
  destruct (validate d); [done|]. by injection Hd as <-.
Qed.

Section EndToEnd.
Context `{M : Kienzler.Models} `{R : !Kienzler.RealtimeModels} `{W : Surroundings}.

Implicit Types (self : Kienzler.KienzlerBasePullConverter).

Lemma realtime_loop (ks : list Kienzler.KienzlerInput)
    (acc : list RealtimeParkingSiteInput.t) :
  fold_left (fun inputs k => inputs ++ [Kienzler.to_realtime_parking_site k]) ks acc
  = acc ++ (Kienzler.to_realtime_parking_site <$> ks).
Proof.
  revert acc. induction ks as [|k ks IH]; intros acc; simpl.
  - by rewrite app_nil_r.
  - by rewrite IH, <- app_assoc.
Qed.

(** X14. The realtime operation returns one record per validated source
    record, in their order, and exactly the validation errors.  The
    static operation, when it returns, has as many records as the
    realtime operation; its errors begin with the validation errors and,
    without overlay, are the validation errors. *)
Theorem static_and_realtime_agree self ks errors :
  Kienzler._get_kienzler_parking_sites self = Py.Ok (ks, errors) ->
  Kienzler.get_realtime_parking_sites self
  = Py.Ok (Kienzler.to_realtime_parking_site <$> ks, errors)
  /\ (forall static_parking_site_inputs static_errors,
        Kienzler.get_static_parking_sites self
        = Py.Ok (static_parking_site_inputs, static_errors) ->
        length static_parking_site_inputs = length ks
        /\ errors `prefix_of` static_errors
        /\ (Kienzler.use_geojson self = false -> static_errors = errors)).
Proof.
  intros Hget. split.
  - unfold Kienzler.get_realtime_parking_sites. rewrite Hget.
    by rewrite realtime_loop.
  - intros ss e2.
    unfold Kienzler.get_static_parking_sites, Kienzler.get_static_parking_sites_store.
    rewrite Hget. destruct (Kienzler.use_geojson self).
    + destruct (Kienzler._get_static_geojson_parking_sites self) as [[gs ge]|]; [|done].
      intros [= <- <-]. rewrite merge_loop_static_objs. simpl.
      split_and!; [apply length_fmap | by apply prefix_app_r | done].
    + intros [= <- <-]. simpl. split_and!; [apply length_fmap | done | done].
Qed.

(** X15. A batch of raw records, without overlay.  The static operation
    returns the canonical records of the accepted records and one error
    per refused record, both in the order of the batch: together they are
    as many as the batch has records.  Every error names the source of
    the converter.  When every record validates, there is no error. *)
Theorem kienzler_static_partition self (batch : list RawRecord) :
  let validate := Kienzler.kienzler_item_validator in
  let inputs :=
    (fun k => Kienzler.to_static_parking_site k
                (SourceInfo.public_url (Kienzler.source_info self)))
      <$> accepted validate batch in
  let errors := rejected validate (Kienzler.kienzler_import_error self) batch in
  Kienzler._request self = Py.Ok (JObj <$> batch) ->
  Kienzler.use_geojson self = false ->
  Kienzler.get_static_parking_sites self = Py.Ok (inputs, errors)
  /\ (length inputs + length errors)%nat = length batch
  /\ Forall (fun error => ImportParkingSiteException.source_uid error
                          = SourceInfo.uid (Kienzler.source_info self)) errors
  /\ ((forall d, d ∈ batch -> exists k, validate d = Py.Ok k) ->
      errors = [] /\ length inputs = length batch).
Proof.
  intros validate inputs errors Hreq Hgeo. split_and!.
  - unfold Kienzler.get_static_parking_sites, Kienzler.get_static_parking_sites_store.
    rewrite (get_kienzler_parking_sites_batch self batch Hreq), Hgeo. done.
  - subst inputs errors. rewrite length_fmap. apply accepted_rejected_length.
  - apply rejected_source_uid.
  - intros Hall. subst inputs errors. rewrite length_fmap. by apply rejected_nil.
Qed.

(** X16. The overlay is loaded only when it is in use, and then its
    failure is fatal: with [use_geojson] set, an exception of the loader
    ends [get_static_parking_sites] although every source record was
    read; without it, the loader plays no role. *)
Theorem overlay_load_failure self ks errors (e : exn) :
  Kienzler._get_kienzler_parking_sites self = Py.Ok (ks, errors) ->
  _get_static_parking_site_inputs_and_exceptions
    (SourceInfo.uid (Kienzler.source_info self)) = Py.Raise e ->
  Kienzler.get_static_parking_sites self
  = if Kienzler.use_geojson self then Py.Raise e
    else Py.Ok ((fun k => Kienzler.to_static_parking_site k
                            (SourceInfo.public_url (Kienzler.source_info self))) <$> ks,
                errors).
Proof.
  intros Hget Hload.
  unfold Kienzler.get_static_parking_sites, Kienzler.get_static_parking_sites_store,
    Kienzler._get_static_geojson_parking_sites.
  rewrite Hget. destruct (Kienzler.use_geojson self); [by rewrite Hload | done].
Qed.

(** X17. One item of the payload that is not a dict costs the whole
    batch: the list validator refuses the payload, nothing catches its
    error, and the static and the realtime operation end with it,
    however many well-formed records the payload holds. *)
Theorem payload_item_not_dict_aborts self (payload : list json) (item : json) :
  let e := UncaughtValidationError (list_items_validation_error payload) in
  Kienzler._request self = Py.Ok payload ->
  item ∈ payload ->
  as_dict item = None ->
  Kienzler._get_kienzler_parking_sites self = Py.Raise e
  /\ Kienzler.get_static_parking_sites self = Py.Raise e
  /\ Kienzler.get_realtime_parking_sites self = Py.Raise e.
Proof.
  intros e Hreq Hitem Hno.
  assert (Kienzler._get_kienzler_parking_sites self = Py.Raise e) as Hget.
  { unfold Kienzler._get_kienzler_parking_sites, Kienzler.kienzler_list_validator.
    rewrite Hreq. rewrite (mapM_None_2 as_dict payload); [done|].
    apply Exists_exists. eauto. }
  split_and!; [done | |].
  - unfold Kienzler.get_static_parking_sites, Kienzler.get_static_parking_sites_store.
    by rewrite Hget.
  - unfold Kienzler.get_realtime_parking_sites. by rewrite Hget.
Qed.

End EndToEnd.

Section BfrkEndToEnd.
Context `{M : Bfrk.Models} `{W : Surroundings}.

Implicit Types (self : Bfrk.BfrkBasePushConverter).

(** X18. A feed of raw records read by the BFRK converter: the canonical
    records and the errors together are as many as the feed has records;
    every error names the source of the converter and carries the value
    under [infraid] of its record, or [None] when the record has no such
    key.  When every record validates, there is no error. *)
Theorem bfrk_static_partition self (batch : list RawRecord) :
  let validate := fun d => Bfrk.bfrk_validator self (JObj d) in
  requests_get (SourceInfo.source_url (Bfrk.source_info self)) 300
    = Py.Ok (JObj <$> batch) ->
  exists inputs errors,
    Bfrk.get_static_parking_sites self = Py.Ok (inputs, errors)
    /\ (length inputs + length errors)%nat = length batch
    /\ Forall (fun error =>
                 ImportParkingSiteException.source_uid error
                 = SourceInfo.uid (Bfrk.source_info self)
                 /\ exists d, d ∈ batch
                      /\ ImportParkingSiteException.parking_site_uid error
                         = default JNull (d !! "infraid")) errors
    /\ ((forall d, d ∈ batch -> exists b, validate d = Py.Ok b) ->
        errors = [] /\ length inputs = length batch).
Proof.
  intros validate Hget. eexists _, _.
  split; [exact (bfrk_static_parking_sites_batch self batch Hget)|].
  split_and!.
  - rewrite length_fmap. apply accepted_rejected_length.
  - unfold rejected. apply Forall_forall. intros error Herr.
    apply list_elem_of_omap in Herr as (d & Hd & Herr).
    destruct (Bfrk.bfrk_validator self (JObj d)); [done|].
    injection Herr as <-. simpl. eauto.
  - intros Hall. rewrite length_fmap. by apply rejected_nil.
Qed.

(** X19. An item of the feed that is not a dict and that the validator
    refuses ends the BFRK converter with an [AttributeError], raised
    while the error for the item is built; its text names the type of
    the item.  The records read before it are not returned. *)
Theorem bfrk_item_not_dict_aborts self (before : list RawRecord)
    (item : json) (rest : list json) (e : ValidationError.t) :
  requests_get (SourceInfo.source_url (Bfrk.source_info self)) 300
    = Py.Ok ((JObj <$> before) ++ item :: rest) ->
  as_dict item = None ->
  Bfrk.bfrk_validator self item = Py.Raise e ->
  Bfrk.get_static_parking_sites self
  = Py.Raise (AttributeError
                ("'" +:+ type_name item +:+ "' object has no attribute 'get'")).
Proof.
  intros Hget Hno Hbad. unfold Bfrk.get_static_parking_sites.
  rewrite Hget, for_each_app, bfrk_loop. cbn [for_each].
  unfold Bfrk.get_static_body at 1. rewrite Hbad.
  destruct item; try done.
Qed.

End BfrkEndToEnd.

(** X20. The eight Kienzler converters have eight different source
    identifiers, and no two of them read the same configuration key; each
    has realtime data, uses one address as public and as source URL, and
    keeps the configuration and the overlay flag it was built with. *)
Theorem kienzler_converters_distinct (config_helper : gmap string string)
    (use_geojson : bool) :
  let converters := Kienzler.converters config_helper use_geojson in
  length converters = 8%nat
  /\ NoDup ((fun c => SourceInfo.uid (Kienzler.source_info c)) <$> converters)
  /\ NoDup (concat (Kienzler.required_config_keys <$> converters))
  /\ Forall (fun c =>
               SourceInfo.has_realtime_data (Kienzler.source_info c) = true
               /\ SourceInfo.public_url (Kienzler.source_info c)
                  = SourceInfo.source_url (Kienzler.source_info c)
               /\ Kienzler.config_helper c = config_helper
               /\ Kienzler.use_geojson c = use_geojson) converters.
Proof.
  intros converters. split_and!.
  - reflexivity.
  - apply (bool_decide_unpack _). vm_compute. reflexivity.
  - apply (bool_decide_unpack _). vm_compute. reflexivity.
  - repeat constructor.
Qed.

(* ===================================================================== *)
(** ** The further properties on concrete inputs                          *)
(* ===================================================================== *)

Lemma description_has_no_line_breaks_witness :
  let dict := hd ∅ (Radvis.to_dicts Sample.radvis_record_plain 0) in
  let d := default "" (Radvis.description_of Sample.radvis_record_plain) in
  Py.CR ∈ chars (default "" (Radvis.beschreibung Sample.radvis_record_plain))
  /\ dict !! "description" = Some (VStr d)
  /\ (Py.CR ∉ chars d)
  /\ (Py.LF ∉ chars d).
Proof.
  intros dict d.
  assert (dict !! "description" = Some (VStr d)) as Hd by (vm_compute; reflexivity).
  destruct (description_has_no_line_breaks Sample.radvis_record_plain 0 dict d)
    as (Hcr & Hlf & _).
  - vm_compute. apply list_elem_of_here.
  - exact Hd.
  - split_and!; [| exact Hd | exact Hcr | exact Hlf].
    vm_compute. do 7 apply list_elem_of_further. apply list_elem_of_here.
Defined.

Lemma description_unset_iff_witness :
  let dict := hd ∅ (Radvis.to_dicts Sample.radvis_record 0) in
  Radvis.beschreibung Sample.radvis_record = Some "Am Eingang"
  /\ dict !! "description" <> Some VNone.
Proof.
  intros dict. split; [reflexivity|].
  destruct (description_unset_iff Sample.radvis_record 0 dict) as [Hto _].
  - vm_compute. apply list_elem_of_here.
  - intros Hnone. destruct (Hto Hnone) as [[Hb|Hb] _]; discriminate.
Defined.

Lemma to_dicts_uids_unique_witness :
  let rs := [Sample.radvis_record; Sample.radvis_record_plain] in
  let dicts := concat ((fun r => Radvis.to_dicts r 0) <$> rs) in
  Radvis.id <$> rs = [17; 18]%Z
  /\ uids_of dicts = [VStr "17"; VStr "17-lockbox"; VStr "18"]
  /\ NoDup (uids_of dicts).
Proof.
  intros rs dicts. split; [reflexivity|]. split; [vm_compute; reflexivity|].
  destruct (to_dicts_uids_unique rs 0) as [Hnd _]; [|exact Hnd].
  apply (bool_decide_unpack _). vm_compute. reflexivity.
Defined.

Lemma lockbox_marks_locker_record_witness :
  let locker := default ∅ (Radvis.to_dicts Sample.radvis_record 0 !! 1%nat) in
  locker !! "uid" = Some (VStr "17-lockbox")
  /\ locker !! "type" = Some (VParkingSiteType ParkingSiteType.LOCKBOX).
Proof.
  intros locker.
  assert (locker !! "uid" = Some (VStr "17-lockbox")) as Hu by (vm_compute; reflexivity).
  split; [exact Hu|].
  destruct (lockbox_marks_locker_record Sample.radvis_record 0 locker)
    as (_ & _ & [_ Hback] & _).
  - vm_compute. apply list_elem_of_further, list_elem_of_here.
  - apply Hback. exact Hu.
Defined.

Lemma to_dicts_group_uid_witness :
  let parent := hd ∅ (Radvis.to_dicts Sample.radvis_record 0) in
  let single := hd ∅ (Radvis.to_dicts Sample.radvis_record_plain 0) in
  parent !! "group_uid" = Some (VStr "17") /\ single !! "group_uid" = None.
Proof.
  intros parent single. split.
  - destruct (to_dicts_group_uid Sample.radvis_record 0 parent) as [Hg _]; [|exact Hg].
    vm_compute. apply list_elem_of_here.
  - destruct (to_dicts_group_uid Sample.radvis_record_plain 0 single) as [Hg _]; [|exact Hg].
    vm_compute. apply list_elem_of_here.
Defined.

Lemma to_related_location_labels_witness :
  LocationType.to_related_location LocationType.SCHULE = Some "Schule"
  /\ forall w, LocationType.to_related_location LocationType.SCHULE
               = LocationType.to_related_location w -> LocationType.SCHULE = w.
Proof.
  split; [reflexivity|]. intros w.
  destruct (to_related_location_labels LocationType.SCHULE w) as [_ Hinj].
  apply Hinj. eexists. reflexivity.
Defined.

Lemma index_by_uid_last_wins_witness :
  let gs := [Sample.overlay_record "101"; Sample.overlay_record "102";
             Sample.overlay_record "101"] in
  Kienzler.index_by_uid gs !! "101" = Some 2%nat
  /\ Kienzler.index_by_uid gs !! "103" = None
  /\ exists g, gs !! 2%nat = Some g /\ StaticParkingSiteInput.uid g = "101".
Proof.
  intros gs.
  assert (Kienzler.index_by_uid gs !! "101" = Some 2%nat) as H2
    by (vm_compute; reflexivity).
  split; [exact H2|]. split; [vm_compute; reflexivity|].
  destruct (index_by_uid_last_wins gs "101") as [_ Hhit].
  destruct (Hhit 2%nat H2) as (g & Hg & Hu & _). eauto.
Defined.

Lemma merge_loop_untouched_overlay_witness :
  let self := Sample.kienzler_converter true in
  let ks := [Sample.kienzler_input "101"] in
  let gs := [Sample.overlay_record "101"; Sample.overlay_record "999"] in
  let after :=
    Kienzler.merge_loop (Kienzler.index_by_uid gs)
      (Kienzler.store_before_merge (M := Sample.kienzler_models) self ks gs) in
  Kienzler.geojson_objs after !! 0%nat <> gs !! 0%nat
  /\ Kienzler.geojson_objs after !! 1%nat = gs !! 1%nat.
Proof.
  intros self ks gs after. split; [vm_compute; discriminate|].
  destruct (merge_loop_untouched_overlay (M := Sample.kienzler_models) self ks gs 1%nat)
    as (_ & _ & _ & Hfree).
  apply Hfree. intros k Hk. apply list_elem_of_singleton in Hk as ->.
  vm_compute. discriminate.
Defined.

Lemma merge_loop_hit_witness :
  let self := Sample.kienzler_converter true in
  let ks := Sample.kienzler_input <$> Sample.five_ids in
  let gs := Sample.overlay_record <$> Sample.five_ids in
  let after :=
    Kienzler.merge_loop (Kienzler.index_by_uid gs)
      (Kienzler.store_before_merge (M := Sample.kienzler_models) self ks gs) in
  exists g,
    gs !! 2%nat = Some g
    /\ Kienzler.geojson_objs after !! 2%nat
       = Some (Sample.extend_static_parking_site_input (Sample.kienzler_input "103") g).2.
Proof.
  intros self ks gs after.
  destruct (merge_loop_hit (M := Sample.kienzler_models) self ks gs 2%nat 2%nat
              (Sample.kienzler_input "103"))
    as (g & Hg & _ & _ & Hover & _).
  - reflexivity.
  - vm_compute. reflexivity.
  - intros j k' Hj Hne.
    destruct j as [|[|[|[|[|j]]]]]; simpl in Hj; try discriminate;
      injection Hj as <-; (done || (vm_compute; discriminate)).
  - exists g. split; [exact Hg | exact Hover].
Defined.

Lemma request_failure_is_fatal_witness :
  let self := Kienzler.KienzlerBikeAndRidePullConverter (Sample.config Sample.sixty_ids) false in
  let W := Sample.failing_surroundings 1 in
  Kienzler.get_static_parking_sites (M := Sample.kienzler_models) (W := W) self
  = Py.Raise (RequestException "Read timed out.")
  /\ Kienzler.get_realtime_parking_sites (R := Sample.kienzler_realtime_models) (W := W) self
     = Py.Raise (RequestException "Read timed out.").
Proof.
  intros self W.
  destruct (request_failure_is_fatal (M := Sample.kienzler_models)
              (R := Sample.kienzler_realtime_models) (W := W)
              self Sample.sixty_ids (Sample.respond "") 1%nat
              (RequestException "Read timed out."))
    as (_ & _ & Hs & Hr).
  - vm_compute. reflexivity.
  - vm_compute. lia.
  - intros j rq Hj. assert (j = 0%nat) as -> by lia. reflexivity.
  - reflexivity.
  - split; [exact Hs | exact Hr].
Defined.

Lemma required_config_keys_suffice_witness :
  let self := Sample.kienzler_converter false in
  let W := Sample.surroundings "" [] [] in
  exists requests,
    Kienzler._request_trace (W := W) self
    = Py.Ok (requests, concat (imap (Sample.respond "") requests))
    /\ Forall (fun rq => Request.user rq = Some "01275925-742c-460b-8778-eca90eb114bc")
              requests.
Proof.
  intros self W.
  destruct (required_config_keys_suffice (W := W) self (Sample.respond ""))
    as (requests & Htrace & Hall).
  - repeat constructor; vm_compute; eexists; reflexivity.
  - intros k rq. reflexivity.
  - exists requests. split; [exact Htrace|].
    eapply Forall_impl; [exact Hall|]. intros rq (Hu & _). rewrite Hu.
    vm_compute. reflexivity.
Defined.

Lemma request_sends_configured_string_witness :
  let self := Kienzler.KienzlerBikeAndRidePullConverter (Sample.config "") false in
  let W := Sample.surroundings "" [] [] in
  Kienzler._request_trace (W := W) self
  = Py.Ok ([request_for self [""]], Sample.respond "" 0 (request_for self [""])).
Proof.
  intros self W.
  destruct (request_sends_configured_string (W := W) self "" (Sample.respond ""))
    as (requests & Htrace & _ & Hempty & _).
  - vm_compute. reflexivity.
  - intros k rq. reflexivity.
  - rewrite Htrace, (Hempty eq_refl). vm_compute. reflexivity.
Defined.

Lemma missing_ids_raises_witness :
  let self := Kienzler.KienzlerBikeAndRidePullConverter ∅ false in
  let W := Sample.surroundings "" [] [] in
  Kienzler.get_static_parking_sites (M := Sample.kienzler_models) (W := W) self
  = Py.Raise (AttributeError "'NoneType' object has no attribute 'split'").
Proof.
  intros self W.
  destruct (missing_ids_raises (M := Sample.kienzler_models)
              (R := Sample.kienzler_realtime_models) (W := W) self)
    as (_ & Hs & _); [reflexivity | exact Hs].
Defined.

Lemma static_and_realtime_agree_witness :
  let self := Sample.kienzler_converter false in
  let W := Sample.surroundings "103" [] [] in
  exists realtime_parking_site_inputs errors,
    Kienzler.get_realtime_parking_sites (R := Sample.kienzler_realtime_models) (W := W) self
    = Py.Ok (realtime_parking_site_inputs, errors)
    /\ RealtimeParkingSiteInput.uid <$> realtime_parking_site_inputs
       = ["101"; "102"; "104"; "105"]
    /\ length errors = 1%nat.
Proof.
  intros self W.
  destruct (static_and_realtime_agree (M := Sample.kienzler_models)
              (R := Sample.kienzler_realtime_models) (W := W) self
              (Sample.kienzler_input <$> ["101"; "102"; "104"; "105"])
              [Kienzler.kienzler_import_error (W := W) self (Sample.malformed_record "103")
                 {| ValidationError.to_dict := JObj {[ "code" := JStr "field_errors" ]} |}])
    as [Hr _].
  - vm_compute. reflexivity.
  - eexists _, _. split; [exact Hr|]. split; reflexivity.
Defined.

Lemma kienzler_static_partition_witness :
  let self := Sample.kienzler_converter false in
  let W := Sample.surroundings "103" [] [] in
  exists inputs errors,
    Kienzler.get_static_parking_sites (M := Sample.kienzler_models) (W := W) self
    = Py.Ok (inputs, errors)
    /\ length inputs = 4%nat /\ length errors = 1%nat.
Proof.
  intros self W.
  destruct (kienzler_static_partition (M := Sample.kienzler_models) (W := W) self
              [Sample.raw_record "101"; Sample.raw_record "102";
               Sample.malformed_record "103";
               Sample.raw_record "104"; Sample.raw_record "105"])
    as (Hret & _).
  - vm_compute. reflexivity.
  - reflexivity.
  - eexists _, _. split; [exact Hret|]. split; vm_compute; reflexivity.
Defined.

Lemma overlay_load_failure_witness :
  let W := Sample.failing_surroundings 99 in
  Kienzler.get_static_parking_sites (M := Sample.kienzler_models) (W := W)
    (Sample.kienzler_converter true)
  = Py.Raise (RequestException "404 Client Error")
  /\ exists inputs,
       Kienzler.get_static_parking_sites (M := Sample.kienzler_models) (W := W)
         (Sample.kienzler_converter false)
       = Py.Ok (inputs, []) /\ length inputs = 5%nat.
Proof.
  intros W. split.
  - apply (overlay_load_failure (M := Sample.kienzler_models) (W := W)
             (Sample.kienzler_converter true)
             (Sample.kienzler_input <$> Sample.five_ids) []
             (RequestException "404 Client Error")).
    + vm_compute. reflexivity.
    + reflexivity.
  - eexists. split.
    + apply (overlay_load_failure (M := Sample.kienzler_models) (W := W)
               (Sample.kienzler_converter false)
               (Sample.kienzler_input <$> Sample.five_ids) []
               (RequestException "404 Client Error")).
      * vm_compute. reflexivity.
      * reflexivity.
    + reflexivity.
Defined.

Lemma payload_item_not_dict_aborts_witness :
  let payload := [JObj (Sample.raw_record "101"); JStr "maintenance"] in
  let W := Sample.surroundings_with_payload payload in
  Kienzler.get_static_parking_sites (M := Sample.kienzler_models) (W := W)
    (Sample.kienzler_converter false)
  = Py.Raise (UncaughtValidationError
                {| ValidationError.to_dict := JObj {[ "code" := JStr "list_item_errors" ]} |}).
Proof.
  intros payload W.
  destruct (payload_item_not_dict_aborts (M := Sample.kienzler_models)
              (R := Sample.kienzler_realtime_models) (W := W)
              (Sample.kienzler_converter false) payload (JStr "maintenance"))
    as (_ & Hs & _).
  - vm_compute. reflexivity.
  - apply list_elem_of_further, list_elem_of_here.
  - reflexivity.
  - exact Hs.
Defined.

Lemma bfrk_static_partition_witness :
  let W := Sample.surroundings "" (JObj <$> Sample.bfrk_feed) [] in
  exists inputs errors,
    Bfrk.get_static_parking_sites (M := Sample.bfrk_models) (W := W) Sample.bfrk_converter
    = Py.Ok (inputs, errors)
    /\ (length inputs + length errors)%nat = 5%nat.
Proof.
  intros W.
  destruct (bfrk_static_partition (M := Sample.bfrk_models) (W := W)
              Sample.bfrk_converter Sample.bfrk_feed)
    as (inputs & errors & Hret & Hlen & _).
  - reflexivity.
  - exists inputs, errors. split; [exact Hret | exact Hlen].
Defined.

Lemma bfrk_item_not_dict_aborts_witness :
  let feed := (JObj <$> [Sample.bfrk_record "201" (JInt 4)]) ++ [JStr "maintenance"] in
  let W := Sample.surroundings "" feed [] in
  Bfrk.get_static_parking_sites (M := Sample.bfrk_models) (W := W) Sample.bfrk_converter
  = Py.Raise (AttributeError "'str' object has no attribute 'get'").
Proof.
  intros feed W.
  apply (bfrk_item_not_dict_aborts (M := Sample.bfrk_models) (W := W)
           Sample.bfrk_converter [Sample.bfrk_record "201" (JInt 4)]
           (JStr "maintenance") []
           {| ValidationError.to_dict := JObj {[ "code" := JStr "invalid_type" ]} |}).
  - reflexivity.
  - reflexivity.
  - reflexivity.
Defined.

(* ===================================================================== *)
(** ** RadVIS: reprojection and quantization                              *)
(* ===================================================================== *)

Lemma round_half_even_nearest (c p : N) :
  (0 < p)%N -> nearest_even c p (Decimal.round_half_even c p).
Proof.
  intros Hp. unfold Decimal.round_half_even, nearest_even.
  pose proof (N.div_mod' c p) as Hc.
  pose proof (N.mod_lt c p) as Hr.
  set (q := (c / p)%N) in *. set (r := (c mod p)%N) in *.
  assert (r < p)%N as Hlt by (apply Hr; lia). clear Hr.
  destruct (N.ltb_spec (2 * r) p) as [H1|H1]; [lia|].
  destruct (N.ltb_spec p (2 * r)) as [H2|H2]; [lia|].
  destruct (N.even q) eqn:He.
  - split_and!; [lia | lia | done].
  - split_and!; [lia | lia |]. intros _.
    by rewrite N.add_1_r, N.even_succ, <- N.negb_even, He.
Qed.

(** There is one nearest integer with ties to even. *)
Lemma nearest_even_unique (num den n n' : N) :
  (0 < den)%N -> nearest_even num den n -> nearest_even num den n' -> n = n'.
Proof.
  intros Hd (H1 & H2 & H3) (H1' & H2' & H3').
  assert (n = n' \/ n' = (n + 1)%N \/ n = (n' + 1)%N) as [->|[->| ->]] by nia; [done|..].
  - assert (N.even n = true) as He by (apply H3; nia).
    assert (N.even (n + 1) = true) as He' by (apply H3'; nia).
    by rewrite N.add_1_r, N.even_succ, <- N.negb_even, He in He'.
  - assert (N.even n' = true) as He by (apply H3'; nia).
    assert (N.even (n' + 1) = true) as He' by (apply H3; nia).
    by rewrite N.add_1_r, N.even_succ, <- N.negb_even, He in He'.
Qed.

Lemma nearest_even_scale (a b c n : N) :
  (0 < c)%N -> nearest_even (a * c) (b * c) n <-> nearest_even a b n.
Proof.
  intros Hc. unfold nearest_even.
  split; intros (H1 & H2 & H3); split_and!; try nia; intros Ht; apply H3; nia.
Qed.

Lemma pow_pos_N (b e : N) : (0 < b)%N -> (0 < b ^ e)%N.
Proof. intros Hb. apply N.neq_0_lt_0, N.pow_nonzero. lia. Qed.

(** The coefficient that [quantize] computes for a float is the number
    of units of [1e-7] nearest to the float, ties to even. *)
Lemma rescale_from_float (n k : N) :
  nearest_even (n * 10 ^ 7) (2 ^ k)
    (Decimal.rescale (n * 5 ^ k) (- Z.of_N k) (-7)).
Proof.
  unfold Decimal.rescale.
  destruct (Z.leb_spec (-7) (- Z.of_N k)) as [Hk|Hk].
  - replace (Z.to_N (- Z.of_N k - -7)) with (7 - k)%N by lia.
    assert (n * 10 ^ 7 = n * 5 ^ k * 10 ^ (7 - k) * 2 ^ k)%N as Heq.
    { replace 7%N with (k + (7 - k))%N at 1 by lia.
      rewrite N.pow_add_r. replace 10%N with (2 * 5)%N at 1 by done.
      rewrite N.pow_mul_l. lia. }
    unfold nearest_even. rewrite Heq.
    pose proof (pow_pos_N 2 k). split_and!; [lia | lia |].
    intros [Ht|Ht]; lia.
  - replace (Z.to_N (-7 - - Z.of_N k)) with (k - 7)%N by lia.
    apply (nearest_even_scale _ _ (5 ^ k)); [apply pow_pos_N; lia|].
    assert (2 ^ k * 5 ^ k = 10 ^ (k - 7) * 10 ^ 7)%N as ->.
    { rewrite <- N.pow_mul_l, <- N.pow_add_r. f_equal. lia. }
    replace (n * 10 ^ 7 * 5 ^ k)%N with (n * 5 ^ k * 10 ^ 7)%N by lia.
    apply nearest_even_scale; [by apply pow_pos_N|].
    apply round_half_even_nearest, pow_pos_N. lia.
Qed.

Lemma quantized_number (sign : bool) (n k q : N) :
  nearest_even (n * 10 ^ 7) (2 ^ k) q ->
  RadvisFeature.quantized (Float.Number sign n k)
  = if (10 ^ 28 <=? q)%N then Py.Raise RadvisFeature.DecimalInvalidOperation
    else Py.Ok (Decimal.Number sign q (-7)).
Proof.
  intros Hq.
  assert (Decimal.rescale (n * 5 ^ k) (- Z.of_N k) (-7) = q) as Hres.
  { eapply nearest_even_unique; [| apply rescale_from_float | exact Hq].
    apply pow_pos_N. lia. }
  unfold RadvisFeature.quantized, Decimal.quantize, Decimal.from_float, Decimal.one_e7.
  cbn [orb]. replace ((-7 <? Decimal.Etiny)%Z || (Decimal.Emax <? -7)%Z) with false by done.
  rewrite Hres. unfold Decimal.prec. by destruct (10 ^ 28 <=? q)%N.
Qed.

Lemma quantized_overflows (x : Float.t) :
  overflows x ->
  RadvisFeature.quantized x = Py.Raise RadvisFeature.DecimalInvalidOperation.
Proof.
  destruct x as [sign n k|sign|]; simpl; [|done..].
  intros (q & Hq & Hbig). rewrite (quantized_number sign n k q Hq).
  by destruct (N.leb_spec (10 ^ 28) q); [|lia].
Qed.

Lemma with_proj_loop_ok
    (body : gmap string value -> Py.result RadvisFeature.error RadvisFeature.StaticParkingSiteInput)
    (build : gmap string value -> RadvisFeature.StaticParkingSiteInput)
    (dicts : list (gmap string value)) (acc : list RadvisFeature.StaticParkingSiteInput) :
  (forall d, body d = Py.Ok (build d)) ->
  RadvisFeature.with_proj_loop body dicts acc = Py.Ok (acc ++ (build <$> dicts)).
Proof.
  intros Hbody. revert acc. induction dicts as [|d dicts IH]; intros acc; simpl.
  - by rewrite app_nil_r.
  - by rewrite Hbody, IH, <- app_assoc.
Qed.

Lemma with_proj_loop_raise
    (body : gmap string value -> Py.result RadvisFeature.error RadvisFeature.StaticParkingSiteInput)
    (e : RadvisFeature.error)
    (dicts : list (gmap string value)) (acc : list RadvisFeature.StaticParkingSiteInput) :
  dicts <> [] ->
  (forall d, body d = Py.Raise e) ->
  RadvisFeature.with_proj_loop body dicts acc = Py.Raise e.
Proof.
  intros Hne Hbody. destruct dicts as [|d dicts]; [done|].
  simpl. by rewrite Hbody.
Qed.

Lemma to_dicts_not_nil (r : Radvis.RadvisFeaturePropertiesInput) (now : datetime) :
  Radvis.to_dicts r now <> [].
Proof. unfold Radvis.to_dicts. by destruct (Py.truthy_int _). Qed.

(** C7, as the code has it.  Let [(x, y)] be what the inverse projection
    answers for the float values of the coordinates of a feature.  When
    [x] and [y] are numbers that count fewer than [10 ^ 28] units of
    [1e-7], every record of the feature gets as [lon] and [lat] the
    decimals with exactly seven fractional digits whose coefficients are
    the numbers of units of [1e-7] nearest to [x] and to [y], the even
    one of two nearest, with the signs of [x] and [y]; the attributes of
    the records are the dicts of [to_dicts].  When [x] or [y] is
    infinite or counts [10 ^ 28] units or more, the method raises
    [decimal.InvalidOperation] and returns no record. *)
Theorem with_proj_quantizes
    (to_float : Decimal.t -> Float.t)
    (self : RadvisFeature.RadvisFeatureInput)
    (proj : Float.t -> Float.t -> Float.t * Float.t) (now : datetime)
    (lon lat : Decimal.t) (x y : Float.t) :
  RadvisFeature.coordinates (RadvisFeature.geometry self) !! 0%nat = Some lon ->
  RadvisFeature.coordinates (RadvisFeature.geometry self) !! 1%nat = Some lat ->
  proj (to_float lon) (to_float lat) = (x, y) ->
  (forall sx nx kx sy ny ky qx qy,
     x = Float.Number sx nx kx ->
     y = Float.Number sy ny ky ->
     nearest_even (nx * 10 ^ 7) (2 ^ kx) qx ->
     nearest_even (ny * 10 ^ 7) (2 ^ ky) qy ->
     (qx < 10 ^ 28)%N ->
     (qy < 10 ^ 28)%N ->
     RadvisFeature.to_static_parking_site_inputs_with_proj to_float self proj now
     = Py.Ok ((fun property_dict =>
                 {| RadvisFeature.attributes := property_dict;
                    RadvisFeature.lon := Decimal.Number sx qx (-7);
                    RadvisFeature.lat := Decimal.Number sy qy (-7) |})
                <$> Radvis.to_dicts (RadvisFeature.properties self) now))
  /\ (overflows x \/ overflows y ->
      RadvisFeature.to_static_parking_site_inputs_with_proj to_float self proj now
      = Py.Raise RadvisFeature.DecimalInvalidOperation).
Proof.
  intros Hlon Hlat Hproj. unfold RadvisFeature.to_static_parking_site_inputs_with_proj.
  rewrite Hlon, Hlat, Hproj. cbn [fst snd]. split.
  - intros sx nx kx sy ny ky qx qy Hx Hy Hqx Hqy Hbx Hby. rewrite Hx, Hy.
    rewrite (quantized_number sx nx kx qx Hqx), (quantized_number sy ny ky qy Hqy).
    destruct (N.leb_spec (10 ^ 28) qx); [lia|].
    destruct (N.leb_spec (10 ^ 28) qy); [lia|].
    by rewrite (with_proj_loop_ok _ _ _ [] (fun d => eq_refl)).
  - intros Hover. apply with_proj_loop_raise; [apply to_dicts_not_nil|].
    intros d. destruct Hover as [Hx|Hy].
    + by rewrite (quantized_overflows x Hx).
    + rewrite (quantized_overflows y Hy).
      destruct (RadvisFeature.quantized x) as [lon'|e] eqn:Hqx; [done|].
      unfold RadvisFeature.quantized in Hqx.
      destruct (Decimal.quantize _ _) as [|[]]; [done|]. by injection Hqx as <-.
Qed.

Lemma with_proj_quantizes_witness :
  let run := fun x y =>
    RadvisFeature.to_static_parking_site_inputs_with_proj Sample.float_of_integer
      (Sample.radvis_feature x y) Sample.inverse_projection 0 in
  let located := fun lon lat =>
    (fun d => {| RadvisFeature.attributes := d;
                 RadvisFeature.lon := Decimal.Number false lon (-7);
                 RadvisFeature.lat := Decimal.Number false lat (-7) |})
      <$> Radvis.to_dicts Sample.radvis_record 0 in
  run 573423%N 5361836%N = Py.Ok (located 99869585%N 484042038%N)
  /\ run 1%N 3%N = Py.Ok (located 39062%N 117188%N).
Proof.
  intros run located. split.
  - destruct (with_proj_quantizes Sample.float_of_integer
                (Sample.radvis_feature 573423 5361836) Sample.inverse_projection 0
                (Decimal.Number false 573423 0) (Decimal.Number false 5361836 0)
                (Float.Number false 5622157839976503 49)
                (Float.Number false 6812286068651423 47))
      as [Hok _]; [reflexivity | reflexivity | reflexivity |].
    apply (Hok false 5622157839976503%N 49%N false 6812286068651423%N 47%N
             99869585%N 484042038%N); try reflexivity.
    + unfold nearest_even. vm_compute. split_and!; [discriminate | discriminate |].
      intros [Ht|Ht]; discriminate.
    + unfold nearest_even. vm_compute. split_and!; [discriminate | discriminate |].
      intros [Ht|Ht]; discriminate.
  - destruct (with_proj_quantizes Sample.float_of_integer
                (Sample.radvis_feature 1 3) Sample.inverse_projection 0
                (Decimal.Number false 1 0) (Decimal.Number false 3 0)
                (Float.Number false 1 8) (Float.Number false 3 8))
      as [Hok _]; [reflexivity | reflexivity | reflexivity |].
    apply (Hok false 1%N 8%N false 3%N 8%N 39062%N 117188%N); try reflexivity.
    + unfold nearest_even. vm_compute. split_and!; [discriminate | discriminate |].
      intros _. reflexivity.
    + unfold nearest_even. vm_compute. split_and!; [discriminate | discriminate |].
      intros _. reflexivity.
Defined.

(** C7, as the specification words it, fails: for a point that the
    projection cannot transform it answers [inf], [quantize] raises
    [decimal.InvalidOperation], and the method returns no record, so no
    coordinate with seven fractional digits; the same happens for a
    coordinate of [1e21]. *)
Lemma with_proj_quantizes_counterexample :
  RadvisFeature.to_static_parking_site_inputs_with_proj Sample.float_of_integer
    (Sample.radvis_feature 0 0) Sample.inverse_projection 0
  = Py.Raise RadvisFeature.DecimalInvalidOperation
  /\ Sample.inverse_projection (Float.Number false 0 0) (Float.Number false 0 0)
     = (Float.Inf false, Float.Inf false)
  /\ RadvisFeature.quantized (Float.Number false (10 ^ 21) 0)
     = Py.Raise RadvisFeature.DecimalInvalidOperation
  /\ RadvisFeature.quantized (Float.Number false (10 ^ 21 - 2 ^ 17) 0)
     = Py.Ok (Decimal.Number false ((10 ^ 21 - 2 ^ 17) * 10 ^ 7) (-7)).
Proof. split_and!; vm_compute; reflexivity. Qed.
